(** * APIClient: the retrying HTTP client of [src/api/client.py]

    A shallow embedding of the class [APIClient] and of the parts of its
    two collaborators that decide its behaviour: the [tenacity] retry
    controller configured by the [@retry] decorator, and the [httpx]
    notions the code tests against (exception classes, header lookup,
    [is_success]).

    Python strings are [string]; integers and seconds are [Z]; the
    objects handed around ([dict], [list], [None], ...) are values of
    [pyval]; the mutable client is a record threaded explicitly; calls
    that touch the outside (the transport, the logger, the clock, the
    back-off sleep) run in a state-and-exception monad over a [world]
    that records what happened.

    Left out: [close], which only releases the connection pool; the
    headers [httpx] adds by itself ([Accept-Encoding], [Connection],
    [Content-Length]); fractions of a second. *)

From Stdlib Require Import String Ascii List ZArith Bool Lia.
From Stdlib Require Import DecimalString.
Import ListNotations.

Local Open Scope list_scope.
Local Open Scope string_scope.
Local Open Scope Z_scope.

(* ===================================================================== *)
(** ** Python string methods used by the client *)
(* ===================================================================== *)

Module PyStr.

(** [c in chars] for a one-character string [c]. *)
Definition in_chars (c : ascii) (chars : string) : bool :=
  existsb (Ascii.eqb c) (list_ascii_of_string chars).

(** [s.startswith(p)]. *)
Fixpoint startswith (p s : string) : bool :=
  match p, s with
  | EmptyString, _ => true
  | String a p', String b s' => Ascii.eqb a b && startswith p' s'
  | String _ _, EmptyString => false
  end.

(** [s.startswith((p1, ..., pn))]: a tuple of prefixes. *)
Definition startswith_any (ps : list string) (s : string) : bool :=
  existsb (fun p => startswith p s) ps.

(** [s.endswith(suf)]: some tail of [s] is [suf]. *)
Fixpoint endswith (suf s : string) : bool :=
  String.eqb suf s ||
  match s with
  | EmptyString => false
  | String _ s' => endswith suf s'
  end.

(** [s.lstrip(chars)]: drop the leading characters that occur in [chars]. *)
Fixpoint lstrip (chars s : string) : string :=
  match s with
  | EmptyString => EmptyString
  | String c s' => if in_chars c chars then lstrip chars s' else s
  end.

(** [s.rstrip(chars)]: drop the trailing characters that occur in [chars]. *)
Fixpoint rstrip (chars s : string) : string :=
  match s with
  | EmptyString => EmptyString
  | String c s' =>
      match rstrip chars s' with
      | EmptyString => if in_chars c chars then EmptyString
                       else String c EmptyString
      | String d t => String c (String d t)
      end
  end.

Definition upper_ascii (c : ascii) : ascii :=
  let n := nat_of_ascii c in
  if (Nat.leb 97 n && Nat.leb n 122)%bool then ascii_of_nat (n - 32) else c.

Definition lower_ascii (c : ascii) : ascii :=
  let n := nat_of_ascii c in
  if (Nat.leb 65 n && Nat.leb n 90)%bool then ascii_of_nat (n + 32) else c.

Fixpoint map_string (f : ascii -> ascii) (s : string) : string :=
  match s with
  | EmptyString => EmptyString
  | String c s' => String (f c) (map_string f s')
  end.

(** [s.upper()] and [s.lower()] on ASCII text. *)
Definition upper : string -> string := map_string upper_ascii.
Definition lower : string -> string := map_string lower_ascii.

(** [sep.join(items)]. *)
Fixpoint join (sep : string) (items : list string) : string :=
  match items with
  | [] => ""
  | [x] => x
  | x :: rest => x ++ sep ++ join sep rest
  end.

(** [n * "c"]: a run of [n] copies of one character. *)
Fixpoint run (c : ascii) (n : nat) : string :=
  match n with
  | O => EmptyString
  | S k => String c (run c k)
  end.

(** Truth value of a string: non-empty. *)
Definition truthy (s : string) : bool :=
  match s with EmptyString => false | String _ _ => true end.

End PyStr.

(* ===================================================================== *)
(** ** Python values *)
(* ===================================================================== *)

(** The values that travel through [data], [params], the extra keyword
    options and the decoded JSON body. *)
#[warnings="-register-all"]
Inductive pyval : Type :=
| PNone
| PBool (b : bool)
| PInt (n : Z)
| PStr (s : string)
| PList (items : list pyval)
| PDict (items : list (string * pyval)).

(** [isinstance(v, (dict, list))]. *)
Definition is_dict_or_list (v : pyval) : bool :=
  match v with
  | PDict _ | PList _ => true
  | _ => false
  end.

(** [v is not None]. *)
Definition is_not_none (v : pyval) : bool :=
  match v with
  | PNone => false
  | _ => true
  end.

(** [repr(v)].  A string is shown between single quotes, which is what
    Python prints when the text holds no quote, backslash or control
    character. *)
Fixpoint py_repr (v : pyval) : string :=
  match v with
  | PNone => "None"
  | PBool true => "True"
  | PBool false => "False"
  | PInt n => NilZero.string_of_int (Z.to_int n)
  | PStr s => "'" ++ s ++ "'"
  | PList items => "[" ++ PyStr.join ", " (map py_repr items) ++ "]"
  | PDict items =>
      "{" ++ PyStr.join ", "
               (map (fun kv => match kv with
                               | (k, x) => "'" ++ k ++ "': " ++ py_repr x
                               end) items) ++ "}"
  end.

(** [str(v)]: a string is itself, everything else prints as its [repr]. *)
Definition py_str (v : pyval) : string :=
  match v with
  | PStr s => s
  | _ => py_repr v
  end.

(* ===================================================================== *)
(** ** Header collections *)
(* ===================================================================== *)

(** A Python [dict] with string keys and values, in insertion order. *)
Definition pydict := list (string * string).

Module PyDict.

(** [d[k] = v]: overwrite in place, or append a new key. *)
Fixpoint set (k v : string) (d : pydict) : pydict :=
  match d with
  | [] => [(k, v)]
  | (k', v') :: d' =>
      if String.eqb k k' then (k', v) :: d' else (k', v') :: set k v d'
  end.

(** [d.update(other)]. *)
Definition update (d other : pydict) : pydict :=
  fold_left (fun acc kv => set (fst kv) (snd kv) acc) other d.

(** Truth value of a dict: non-empty. *)
Definition truthy (d : pydict) : bool :=
  match d with [] => false | _ :: _ => true end.

End PyDict.

(** [httpx.Headers]: an ordered multi-map whose keys compare without
    regard to case.  Each entry keeps the key as written. *)
Definition Headers := list (string * string).

Module Hdr.

Definition same_key (k k' : string) : bool :=
  String.eqb (PyStr.lower k) (PyStr.lower k').

(** The values stored under [key], in order. *)
Definition values (key : string) (h : Headers) : list string :=
  map snd (filter (fun kv => same_key key (fst kv)) h).

(** [key in h]. *)
Definition mem (key : string) (h : Headers) : bool :=
  existsb (fun kv => same_key key (fst kv)) h.

(** [h.get(key, default)]: the values under [key] joined by [", "]. *)
Definition get (key default : string) (h : Headers) : string :=
  match values key h with
  | [] => default
  | vs => PyStr.join ", " vs
  end.

(** Lookup as an option, for statements. *)
Definition lookup (key : string) (h : Headers) : option string :=
  match values key h with
  | [] => None
  | vs => Some (PyStr.join ", " vs)
  end.

(** Remove every entry stored under [key]. *)
Definition remove (key : string) (h : Headers) : Headers :=
  filter (fun kv => negb (same_key key (fst kv))) h.

(** [h[key] = value]: the first entry under [key] is replaced in place
    and its duplicates are dropped; a new key is appended. *)
Fixpoint set (key value : string) (h : Headers) : Headers :=
  match h with
  | [] => [(key, value)]
  | (k, v) :: h' =>
      if same_key key k then (key, value) :: remove key h'
      else (k, v) :: set key value h'
  end.

(** [h.update(other)]: keys of [other] are removed from [h], then the
    entries of [other] are appended. *)
Definition update (h other : Headers) : Headers :=
  (filter (fun kv => negb (mem (fst kv) other)) h ++ other)%list.

(** [Headers(d)] for a dict [d]. *)
Definition of_dict (d : pydict) : Headers := d.

(** The distinct lower-cased keys, in order of first occurrence. *)
Fixpoint keys (h : Headers) : list string :=
  match h with
  | [] => []
  | (k, _) :: h' => PyStr.lower k :: List.filter (fun k' => negb (String.eqb k' (PyStr.lower k))) (keys h')
  end.

(** [dict(h)]. *)
Definition to_dict (h : Headers) : pydict :=
  map (fun k => (k, get k "" h)) (keys h).

End Hdr.

(* ===================================================================== *)
(** ** Exceptions *)
(* ===================================================================== *)

(** The exception classes that can reach the client: those of
    [httpx/_exceptions.py] and the built-in ones they derive from.  All
    of them derive from [Exception], which is what the [except Exception]
    clauses of the client catch.  The signals that derive from
    [BaseException] only ([KeyboardInterrupt], [CancelledError]) and
    tenacity's own [TryAgain], which the client never raises, are not
    part of the model. *)
Inductive exc_class : Type :=
| Exception
| RuntimeError | TypeError | ValueError | JSONDecodeError
| HTTPError
| RequestError
| TransportError
| TimeoutException
| ConnectTimeout | ReadTimeout | WriteTimeout | PoolTimeout
| NetworkError
| ConnectError | ReadError | WriteError | CloseError
| ProtocolError
| LocalProtocolError | RemoteProtocolError
| ProxyError
| UnsupportedProtocol
| DecodingError
| TooManyRedirects
| HTTPStatusError
| InvalidURL
| CookieConflict
| StreamError.

Scheme Equality for exc_class.

(** The base class of each class ([None] above [Exception]). *)
Definition base_class (c : exc_class) : option exc_class :=
  match c with
  | Exception => None
  | RuntimeError | TypeError | ValueError => Some Exception
  | JSONDecodeError => Some ValueError
  | HTTPError => Some Exception
  | RequestError | HTTPStatusError => Some HTTPError
  | TransportError | DecodingError | TooManyRedirects => Some RequestError
  | TimeoutException | NetworkError | ProtocolError
  | ProxyError | UnsupportedProtocol => Some TransportError
  | ConnectTimeout | ReadTimeout | WriteTimeout | PoolTimeout =>
      Some TimeoutException
  | ConnectError | ReadError | WriteError | CloseError => Some NetworkError
  | LocalProtocolError | RemoteProtocolError => Some ProtocolError
  | InvalidURL | CookieConflict => Some Exception
  | StreamError => Some RuntimeError
  end.

(** [issubclass(c, d)], by walking up from [c]; the hierarchy is six
    levels deep. *)
Fixpoint issubclass_upto (depth : nat) (c d : exc_class) : bool :=
  exc_class_beq c d ||
  match depth with
  | O => false
  | S k => match base_class c with
           | Some b => issubclass_upto k b d
           | None => false
           end
  end.

Definition issubclass : exc_class -> exc_class -> bool := issubclass_upto 6.

(** A raised exception: its class and its message ([str(e)]). *)
Record exc : Type := mk_exc { exc_type : exc_class; exc_msg : string }.

(** [isinstance(e, d)] and [isinstance(e, (d1, ..., dn))]. *)
Definition isinstance (e : exc) (d : exc_class) : bool :=
  issubclass (exc_type e) d.

Definition isinstance_any (e : exc) (ds : list exc_class) : bool :=
  existsb (isinstance e) ds.

(** What the caller of a function decorated with [@retry] can see raised:
    the exception of an attempt re-raised as it is, or tenacity's
    [RetryError], whose [last_attempt] holds the exception of the final
    attempt (also set as its [__cause__]). *)
Inductive raised : Type :=
| Propagated (e : exc)
| RetryError (last_attempt : exc).

(* ===================================================================== *)
(** ** Requests, responses and the world *)
(* ===================================================================== *)

(** A value among the keyword arguments given to [httpx]: a Python
    value, or the dictionary of per-call headers. *)
Inductive kwarg : Type :=
| KwValue (v : pyval)
| KwHeaders (h : pydict).

(** The keyword arguments [request] builds for [httpx]: the Python
    dictionary [request_kwargs], in insertion order. *)
Definition request_kwargs : Type := list (string * kwarg).

Module KwArgs.

(** [kw.get(k)]. *)
Fixpoint get (k : string) (kw : request_kwargs) : option kwarg :=
  match kw with
  | [] => None
  | (k', v) :: kw' => if String.eqb k k' then Some v else get k kw'
  end.

(** [kw[k] = v]: overwrite in place, or append a new key. *)
Fixpoint set (k : string) (v : kwarg) (kw : request_kwargs) : request_kwargs :=
  match kw with
  | [] => [(k, v)]
  | (k', v') :: kw' =>
      if String.eqb k k' then (k', v) :: kw' else (k', v') :: set k v kw'
  end.

(** [{**kw, **other}]: the entries of [other] laid over [kw]. *)
Definition spread (kw : request_kwargs) (other : list (string * pyval))
    : request_kwargs :=
  fold_left (fun acc kv => set (fst kv) (KwValue (snd kv)) acc) other kw.

End KwArgs.

(** The Python value passed under a keyword, if any. *)
Definition kw_value (k : string) (kw : request_kwargs) : option pyval :=
  match KwArgs.get k kw with
  | Some (KwValue v) => Some v
  | _ => None
  end.

Definition kw_params : request_kwargs -> option pyval := kw_value "params".
Definition kw_timeout : request_kwargs -> option pyval := kw_value "timeout".
Definition kw_json : request_kwargs -> option pyval := kw_value "json".
Definition kw_content : request_kwargs -> option pyval := kw_value "content".
Definition kw_files : request_kwargs -> option pyval := kw_value "files".

(** The per-call headers passed under [headers], if any. *)
Definition kw_headers (kw : request_kwargs) : option pydict :=
  match KwArgs.get "headers" kw with
  | Some (KwHeaders h) => Some h
  | _ => None
  end.

(** One call of [self.client.request]: the arguments as passed, and the
    headers the request carries once [httpx] has merged the per-call
    headers over those of the client. *)
Record sent : Type := mk_sent {
  sent_method : string;
  sent_url : string;
  sent_kwargs : request_kwargs;
  sent_headers : Headers
}.

(** An [httpx.Response], read in full. *)
Record response : Type := mk_response {
  status_code : Z;
  headers : Headers;
  text : string
}.

(** [response.is_success]: [200 <= status_code <= 299]. *)
Definition is_success (r : response) : bool :=
  (200 <=? status_code r) && (status_code r <=? 299).

(** The dictionary [request] returns. *)
Record result : Type := mk_result {
  r_status : Z;
  r_ok : bool;
  r_headers : pydict;
  r_data : pyval;
  r_text : string;
  r_elapsed : Z;
  r_response : response
}.

Inductive log_level : Type := DEBUG | ERROR.

(** A [structlog] record: level, event and key-value fields. *)
Record log_entry : Type := mk_log {
  log_level_of : log_level;
  log_event : string;
  log_fields : list (string * pyval)
}.

(** Everything a run leaves behind: the calls handed to the transport,
    the back-off sleeps, the log, and the clock (whole seconds). *)
Record world : Type := mk_world {
  calls : list sent;
  sleeps : list Z;
  logs : list log_entry;
  clock : Z
}.

Definition empty_world : world := mk_world [] [] [] 0.

(** How a call ends. *)
Inductive outcome (E A : Type) : Type :=
| Returned (a : A)
| Raised (e : E).
Arguments Returned {E A} a.
Arguments Raised {E A} e.

(** A computation: from a world to an outcome and the world after it, or
    [None] when the retry loop below runs out of fuel. *)
Definition M (E A : Type) : Type := world -> option (outcome E A * world).

Definition ret {E A} (a : A) : M E A := fun w => Some (Returned a, w).

Definition raise {E A} (e : E) : M E A := fun w => Some (Raised e, w).

Definition bind {E A B} (m : M E A) (k : A -> M E B) : M E B :=
  fun w =>
    match m w with
    | None => None
    | Some (Returned a, w') => k a w'
    | Some (Raised e, w') => Some (Raised e, w')
    end.

(** [try: m  except Exception as e: handler e]. *)
Definition try_except {E E' A} (m : M E A) (handler : E -> M E' A) : M E' A :=
  fun w =>
    match m w with
    | None => None
    | Some (Returned a, w') => Some (Returned a, w')
    | Some (Raised e, w') => handler e w'
    end.

Notation "x <- m ;; k" := (bind m (fun x => k))
  (at level 61, m at next level, right associativity).
Notation "m ;;; k" := (bind m (fun _ => k))
  (at level 61, right associativity).

(** [time.time()]. *)
Definition time_time {E} : M E Z := fun w => Some (Returned (clock w), w).

(** [logger.debug(event, **fields)] and [logger.error(event, **fields)]. *)
Definition log {E} (lvl : log_level) (event : string)
    (fields : list (string * pyval)) : M E unit :=
  fun w => Some (Returned tt,
                 mk_world (calls w) (sleeps w)
                          (logs w ++ [mk_log lvl event fields]) (clock w)).

(** The sleep between two attempts. *)
Definition sleep {E} (seconds : Z) : M E unit :=
  fun w => Some (Returned tt,
                 mk_world (calls w) (sleeps w ++ [seconds]) (logs w)
                          (clock w + seconds)).

(* ===================================================================== *)
(** ** The retry controller ([tenacity]) *)
(* ===================================================================== *)

Module Tenacity.

(** The settings of a [Retrying] object ([tenacity/__init__.py]).  The
    strategies see the number of the attempt that has just ended,
    counted from 1.  [reraise] is [False] unless the decorator says
    otherwise. *)
Record Retrying : Type := mk_retrying {
  stop : nat -> bool;
  wait : nat -> Z;
  retry : exc -> bool;
  reraise : bool
}.

(** [stop_after_attempt(n)]: stop once [attempt_number >= n]. *)
Definition stop_after_attempt (max_attempt_number : nat) : nat -> bool :=
  fun attempt_number => Nat.leb max_attempt_number attempt_number.

(** [wait_exponential(multiplier, min, max)], with [exp_base] at its
    default of 2 ([tenacity/wait.py], since release 7.0):
    [max(max(0, min), min(multiplier * 2 ** (attempt_number - 1), max))]. *)
Definition wait_exponential (multiplier min max : Z) : nat -> Z :=
  fun attempt_number =>
    Z.max (Z.max 0 min)
          (Z.min (multiplier * 2 ^ (Z.of_nat attempt_number - 1)) max).

(** [retry_if_exception_type(types)]: the attempt failed with an
    instance of one of [types]. *)
Definition retry_if_exception_type (types : list exc_class) : exc -> bool :=
  fun e => isinstance_any e types.

(** The loop of [Retrying.__call__].  After an attempt: a result, or an
    exception the [retry] predicate rejects, goes to the caller as it
    is; otherwise, if [stop] says so, [RetryError] is raised around the
    last attempt (or, with [reraise], that attempt's own exception);
    otherwise the loop sleeps for [wait] and tries again. *)
Fixpoint call {A} (fuel : nat) (r : Retrying) (fn : M exc A)
    (attempt_number : nat) : M raised A :=
  match fuel with
  | O => fun _ => None
  | S fuel' =>
      try_except fn
        (fun e =>
           if negb (retry r e) then raise (Propagated e)
           else if stop r attempt_number then
             (if reraise r then raise (Propagated e)
              else raise (RetryError e))
           else
             sleep (wait r attempt_number) ;;;
             call fuel' r fn (S attempt_number))
  end.

End Tenacity.

(* ===================================================================== *)
(** ** The client *)
(* ===================================================================== *)

(** The state of an [APIClient]: its base URL and the headers held by
    its [httpx.AsyncClient]. *)
Record APIClient : Type := mk_client {
  base_url : string;
  client_headers : Headers
}.

(** [APIClient.__init__]. *)
Definition init (base_url : string) (default_headers : option pydict)
    : APIClient :=
  let base := if PyStr.truthy base_url then PyStr.rstrip "/" base_url else "" in
  let headers := [ ("Content-Type", "application/json");
                   ("Accept", "application/json");
                   ("User-Agent", "API-Test-Client/1.0") ] in
  let headers :=
    match default_headers with
    | Some d => if PyDict.truthy d then PyDict.update headers d else headers
    | None => headers
    end in
  mk_client base (Hdr.of_dict headers).

(** [set_auth_token]. *)
Definition set_auth_token (token : string) (c : APIClient) : APIClient :=
  mk_client (base_url c)
            (Hdr.set "Authorization" ("Bearer " ++ token) (client_headers c)).

(** [set_base_url]. *)
Definition set_base_url (url : string) (c : APIClient) : APIClient :=
  mk_client (PyStr.rstrip "/" url) (client_headers c).

(** [_build_url]. *)
Definition _build_url (c : APIClient) (endpoint : string) : string :=
  if PyStr.startswith_any ["http://"; "https://"] endpoint then endpoint
  else if PyStr.truthy (base_url c) then
    base_url c ++ "/" ++ PyStr.lstrip "/" endpoint
  else endpoint.

(** The keyword parameters of [request], with their defaults.  [kwargs]
    holds the extra keyword options, which are passed through to
    [httpx] as they are: [follow_redirects] or [cookies], but also
    [json], [content] or [files]. *)
Record options : Type := mk_options {
  data : pyval;
  params : pyval;
  req_headers : option pydict;
  timeout : Z;
  kwargs : list (string * pyval)
}.

Definition default_options : options := mk_options PNone PNone None 30 [].

Definition with_data (d : pyval) (o : options) : options :=
  mk_options d (params o) (req_headers o) (timeout o) (kwargs o).

Definition with_timeout (t : Z) (o : options) : options :=
  mk_options (data o) (params o) (req_headers o) t (kwargs o).

Definition with_headers (h : pydict) (o : options) : options :=
  mk_options (data o) (params o) (Some h) (timeout o) (kwargs o).

(** The names of the parameters of [request].  Python binds a keyword
    argument of one of these names to the parameter, so [**kwargs]
    never holds them. *)
Definition parameter_names : list string :=
  ["self"; "method"; "endpoint"; "data"; "params"; "headers"; "timeout"].

Definition is_parameter_name (k : string) : bool :=
  existsb (String.eqb k) parameter_names.

(** What [**kwargs] holds of the extra options. *)
Definition extra_kwargs (o : options) : list (string * pyval) :=
  filter (fun kv => negb (is_parameter_name (fst kv))) (kwargs o).

(** The [request_kwargs] dictionary as [request] fills it: [params],
    [timeout] and the extra options spread into one dictionary, then
    [headers] when given and non-empty, then the body under [json] or
    [content]. *)
Definition build_kwargs (o : options) : request_kwargs :=
  let request_kwargs :=
    KwArgs.spread [ ("params", KwValue (params o));
                    ("timeout", KwValue (PInt (timeout o))) ]
                  (extra_kwargs o) in
  let request_kwargs :=
    match req_headers o with
    | Some h =>
        if PyDict.truthy h
        then KwArgs.set "headers" (KwHeaders h) request_kwargs
        else request_kwargs
    | None => request_kwargs
    end in
  if is_not_none (data o) then
    if is_dict_or_list (data o)
    then KwArgs.set "json" (KwValue (data o)) request_kwargs
    else KwArgs.set "content" (KwValue (PStr (py_str (data o))))
                    request_kwargs
  else request_kwargs.

(** The headers [httpx] puts on a request: those of the client with the
    per-call ones merged over them. *)
Definition merge_headers (c : APIClient) (kw : request_kwargs) : Headers :=
  match kw_headers kw with
  | Some h => Hdr.update (client_headers c) (Hdr.of_dict h)
  | None => client_headers c
  end.

Section Client.

(** The transport under [httpx]: what the [n]-th call made through it
    (counted from 0) takes in time and ends with. *)
Variable transport : nat -> sent -> Z * outcome exc response.

(** [json.loads] on the body text; [None] when it does not decode. *)
Variable json_loads : string -> option pyval.

(** [await self.client.request(method=..., url=..., **request_kwargs)].
    The transport stands for all of that call, the checking of its
    keyword arguments included. *)
Definition client_request (c : APIClient) (method url : string)
    (kw : request_kwargs) : M exc response :=
  fun w =>
    let s := mk_sent method url kw (merge_headers c kw) in
    let reply := transport (List.length (calls w)) s in
    Some (snd reply,
          mk_world (calls w ++ [s]) (sleeps w) (logs w)
                   (clock w + fst reply)).

(** [response.json()]. *)
Definition response_json (r : response) : M exc pyval :=
  match json_loads (text r) with
  | Some v => ret v
  | None => raise (mk_exc JSONDecodeError "Expecting value")
  end.

(** The inner [try] of [request]: decode the body by content type, and
    fall back to the text on any exception. *)
Definition parse_body (r : response) : M exc pyval :=
  try_except
    (let ct := Hdr.get "content-type" "" (headers r) in
     if PyStr.startswith "application/json" ct
     then response_json r
     else ret (PStr (text r)))
    (fun _ => ret (PStr (text r))).

(** The body of [request], one attempt. *)
Definition request_body (c : APIClient) (method endpoint : string)
    (o : options) : M exc result :=
  let url := _build_url c endpoint in
  let request_kwargs := build_kwargs o in
  log DEBUG "Making request"
      [("method", PStr method); ("url", PStr url);
       ("timeout", PInt (timeout o))] ;;;
  start_time <- time_time ;;
  try_except
    (response <- client_request c (PyStr.upper method) url request_kwargs ;;
     now <- time_time ;;
     let elapsed := now - start_time in
     response_data <- parse_body response ;;
     log DEBUG "Received response"
         [("method", PStr method); ("url", PStr url);
          ("status", PInt (status_code response));
          ("response_time", PInt elapsed)] ;;;
     ret (mk_result (status_code response) (is_success response)
                    (Hdr.to_dict (headers response)) response_data
                    (text response) elapsed response))
    (fun e =>
       log ERROR "Request failed"
           [("url", PStr url); ("method", PStr method);
            ("error", PStr (exc_msg e))] ;;;
       raise e).

(** The settings given to [@retry] on [request]; [reraise] is left at
    its default. *)
Definition request_retry : Tenacity.Retrying :=
  Tenacity.mk_retrying
    (Tenacity.stop_after_attempt 3)
    (Tenacity.wait_exponential 1 2 10)
    (Tenacity.retry_if_exception_type [RequestError; ReadTimeout])
    false.

(** [request], as decorated.  Three rounds of the loop are all that
    [stop_after_attempt(3)] allows (see [request_fuel_enough]). *)
Definition request_with (fuel : nat) (c : APIClient)
    (method endpoint : string) (o : options) : M raised result :=
  Tenacity.call fuel request_retry (request_body c method endpoint o) 1.

Definition request : APIClient -> string -> string -> options -> M raised result :=
  request_with 3.

Definition get (c : APIClient) (endpoint : string) (o : options)
    : M raised result :=
  request c "GET" endpoint o.

Definition post (c : APIClient) (endpoint : string) (d : pyval)
    (o : options) : M raised result :=
  request c "POST" endpoint (with_data d o).

Definition put (c : APIClient) (endpoint : string) (d : pyval)
    (o : options) : M raised result :=
  request c "PUT" endpoint (with_data d o).

Definition patch (c : APIClient) (endpoint : string) (d : pyval)
    (o : options) : M raised result :=
  request c "PATCH" endpoint (with_data d o).

Definition delete (c : APIClient) (endpoint : string) (o : options)
    : M raised result :=
  request c "DELETE" endpoint o.

(** [health_check]. *)
Definition health_check (c : APIClient) : M raised bool :=
  try_except
    (result <- get c "health" (with_timeout 5 default_options) ;;
     ret (r_status result =? 200))
    (fun _ => ret false).

End Client.

(* ===================================================================== *)
(** ** Facts about the string methods *)
(* ===================================================================== *)

Module PyStrFacts.
Import PyStr.

#[local] Arguments Ascii.eqb : simpl never.

Lemma in_chars_slash (c : ascii) : in_chars c "/" = Ascii.eqb c "/".
Proof.
  unfold in_chars. cbn [list_ascii_of_string existsb]. apply orb_false_r.
Qed.

Lemma endswith_slash_single (c : ascii) :
  in_chars c "/" = false -> endswith "/" (String c "") = false.
Proof.
  rewrite in_chars_slash. intros Hc.
  cbn [endswith String.eqb]. rewrite Ascii.eqb_sym, Hc. reflexivity.
Qed.

(** What [rstrip("/")] returns does not end with a slash. *)
Lemma rstrip_no_trailing_slash (s : string) :
  endswith "/" (rstrip "/" s) = false.
Proof.
  induction s as [|c s IH]; [reflexivity|].
  cbn [rstrip]. destruct (rstrip "/" s) as [|d t] eqn:Hr.
  - destruct (in_chars c "/") eqn:Hc; [reflexivity|].
    now apply endswith_slash_single.
  - change (endswith "/" (String c (String d t)))
      with (String.eqb "/" (String c (String d t)) || endswith "/" (String d t)).
    rewrite IH, orb_false_r. cbn [String.eqb].
    destruct (Ascii.eqb "/" c); reflexivity.
Qed.

Lemma rstrip_run_slash (k : nat) : rstrip "/" (run "/" k) = "".
Proof.
  induction k as [|k IH]; [reflexivity|].
  cbn [run rstrip]. rewrite IH. reflexivity.
Qed.

(** Trailing slashes do not change what [rstrip("/")] returns. *)
Lemma rstrip_append_run (s : string) (k : nat) :
  rstrip "/" (s ++ run "/" k) = rstrip "/" s.
Proof.
  induction s as [|c s IH].
  - apply rstrip_run_slash.
  - cbn [append rstrip]. rewrite IH. reflexivity.
Qed.

(** [rstrip] leaves alone a string it has already stripped. *)
Lemma rstrip_idempotent (s : string) :
  rstrip "/" (rstrip "/" s) = rstrip "/" s.
Proof.
  induction s as [|c s IH]; [reflexivity|].
  cbn [rstrip]. destruct (rstrip "/" s) as [|d t] eqn:Hr.
  - destruct (in_chars c "/") eqn:Hc; [reflexivity|].
    cbn [rstrip]. rewrite Hc. reflexivity.
  - cbn [rstrip]. cbn [rstrip] in IH. rewrite IH. reflexivity.
Qed.

(** Leading slashes do not change what [lstrip("/")] returns. *)
Lemma lstrip_run_append (j : nat) (s : string) :
  lstrip "/" (run "/" j ++ s) = lstrip "/" s.
Proof.
  induction j as [|j IH]; [reflexivity|].
  cbn [run append lstrip]. exact IH.
Qed.

(** What [lstrip("/")] returns does not start with a slash. *)
Lemma lstrip_no_leading_slash (s : string) :
  startswith "/" (lstrip "/" s) = false.
Proof.
  induction s as [|c s IH]; [reflexivity|].
  cbn [lstrip]. destruct (in_chars c "/") eqn:Hc; [exact IH|].
  rewrite in_chars_slash in Hc.
  cbn [startswith]. rewrite Ascii.eqb_sym, Hc. reflexivity.
Qed.

Lemma truthy_false_iff (s : string) : truthy s = false <-> s = "".
Proof. destruct s; simpl; split; congruence. Qed.

Lemma truthy_true_iff (s : string) : truthy s = true <-> s <> "".
Proof. destruct s; simpl; split; congruence. Qed.

(** An endpoint written with leading slashes is a relative one. *)
Lemma slashes_relative (j : nat) (s : string) :
  startswith_any ["http://"; "https://"] s = false ->
  startswith_any ["http://"; "https://"] (run "/" j ++ s) = false.
Proof.
  destruct j as [|j]; [trivial|]. intros _. reflexivity.
Qed.

Lemma startswith_any_scheme (s : string) :
  startswith_any ["http://"; "https://"] s =
  startswith "http://" s || startswith "https://" s.
Proof. unfold startswith_any. simpl. now rewrite orb_false_r. Qed.

End PyStrFacts.

(* ===================================================================== *)
(** ** URL building and the base URL *)
(* ===================================================================== *)

Lemma init_base_url (b : string) (dh : option pydict) :
  base_url (init b dh) = PyStr.rstrip "/" b.
Proof.
  unfold init. destruct b; reflexivity.
Qed.

Lemma build_url_absolute (c : APIClient) (e : string) :
  PyStr.startswith_any ["http://"; "https://"] e = true ->
  _build_url c e = e.
Proof. unfold _build_url. now intros ->. Qed.

Lemma build_url_joined (c : APIClient) (e : string) :
  PyStr.startswith_any ["http://"; "https://"] e = false ->
  base_url c <> "" ->
  _build_url c e = base_url c ++ "/" ++ PyStr.lstrip "/" e.
Proof.
  unfold _build_url. intros -> Hb.
  apply PyStrFacts.truthy_true_iff in Hb. now rewrite Hb.
Qed.

Lemma build_url_no_base (c : APIClient) (e : string) :
  PyStr.startswith_any ["http://"; "https://"] e = false ->
  base_url c = "" ->
  _build_url c e = e.
Proof.
  unfold _build_url. intros -> Hb. now rewrite Hb.
Qed.

Lemma build_url_variants (c : APIClient) (b e : string) (j k : nat) :
  PyStr.startswith_any ["http://"; "https://"] e = false ->
  base_url c = PyStr.rstrip "/" (b ++ PyStr.run "/" k) ->
  PyStr.rstrip "/" b <> "" ->
  _build_url c (PyStr.run "/" j ++ e) =
  PyStr.rstrip "/" b ++ "/" ++ PyStr.lstrip "/" e.
Proof.
  intros He Hc Hb.
  rewrite PyStrFacts.rstrip_append_run in Hc.
  rewrite build_url_joined.
  - now rewrite Hc, PyStrFacts.lstrip_run_append.
  - now apply PyStrFacts.slashes_relative.
  - now rewrite Hc.
Qed.

(** C4.  For every client and endpoint: an endpoint that starts with
    [http://] or [https://] is the built URL, whatever the base URL; a
    relative endpoint is joined to a configured base URL as
    [B + "/" + E], with [E] the endpoint without its leading slashes,
    and a client set up from the base with extra trailing slashes and
    asked for the endpoint with extra leading slashes builds that same
    URL; without a base URL a relative endpoint is returned as it is. *)
Theorem build_url_spec (c : APIClient) (e : string) :
  ((PyStr.startswith "http://" e = true \/
    PyStr.startswith "https://" e = true) ->
   _build_url c e = e)
  /\
  (PyStr.startswith "http://" e = false ->
   PyStr.startswith "https://" e = false ->
   (base_url c <> "" ->
    _build_url c e = base_url c ++ "/" ++ PyStr.lstrip "/" e)
   /\
   (base_url c = "" -> _build_url c e = e)
   /\
   (forall (b : string) (dh : option pydict) (j k : nat),
       PyStr.rstrip "/" b <> "" ->
       _build_url (init (b ++ PyStr.run "/" k) dh) (PyStr.run "/" j ++ e)
       = PyStr.rstrip "/" b ++ "/" ++ PyStr.lstrip "/" e
       /\
       _build_url (set_base_url (b ++ PyStr.run "/" k) c) (PyStr.run "/" j ++ e)
       = PyStr.rstrip "/" b ++ "/" ++ PyStr.lstrip "/" e)).
Proof.
  split.
  - intros H. apply build_url_absolute.
    rewrite PyStrFacts.startswith_any_scheme.
    destruct H as [-> | ->]; [reflexivity | apply orb_true_r].
  - intros H1 H2.
    assert (Hrel : PyStr.startswith_any ["http://"; "https://"] e = false)
      by (rewrite PyStrFacts.startswith_any_scheme, H1, H2; reflexivity).
    repeat split.
    + now apply build_url_joined.
    + now apply build_url_no_base.
    + apply build_url_variants with (k := k); trivial. apply init_base_url.
    + apply build_url_variants with (k := k); trivial.
Qed.

Definition staging_client : APIClient :=
  init "https://api.staging.example.com/" None.

Lemma build_url_spec_witness :
  _build_url staging_client "https://www.google.com" = "https://www.google.com"
  /\ _build_url staging_client "/posts/1"
     = "https://api.staging.example.com/posts/1"
  /\ _build_url (init "" None) "posts/1" = "posts/1"
  /\ _build_url (init ("https://api.example.com" ++ PyStr.run "/" 2) None)
                (PyStr.run "/" 3 ++ "posts/1")
     = "https://api.example.com/posts/1".
Proof.
  split; [|split; [|split]].
  - apply (proj1 (build_url_spec staging_client "https://www.google.com")).
    right; reflexivity.
  - destruct (proj2 (build_url_spec staging_client "/posts/1")
                    eq_refl eq_refl) as (Hjoin & _ & _).
    apply Hjoin. discriminate.
  - destruct (proj2 (build_url_spec (init "" None) "posts/1")
                    eq_refl eq_refl) as (_ & Hnone & _).
    apply Hnone. reflexivity.
  - destruct (proj2 (build_url_spec staging_client "posts/1")
                    eq_refl eq_refl) as (_ & _ & Hvar).
    apply (Hvar "https://api.example.com" None 3%nat 2%nat). discriminate.
Defined.

(* ===================================================================== *)
(** ** One attempt *)
(* ===================================================================== *)

(** The world after a sleep of [d] seconds. *)
Definition slept (d : Z) (w : world) : world :=
  mk_world (calls w) (sleeps w ++ [d]) (logs w) (clock w + d).

(** The call that every attempt of one [request] hands to the transport. *)
Definition the_sent (c : APIClient) (method endpoint : string) (o : options)
    : sent :=
  mk_sent (PyStr.upper method) (_build_url c endpoint) (build_kwargs o)
          (merge_headers c (build_kwargs o)).

Definition making_request (c : APIClient) (method endpoint : string)
    (o : options) : log_entry :=
  mk_log DEBUG "Making request"
         [("method", PStr method); ("url", PStr (_build_url c endpoint));
          ("timeout", PInt (timeout o))].

Definition request_failed (c : APIClient) (method endpoint : string)
    (e : exc) : log_entry :=
  mk_log ERROR "Request failed"
         [("url", PStr (_build_url c endpoint)); ("method", PStr method);
          ("error", PStr (exc_msg e))].

Definition received_response (c : APIClient) (method endpoint : string)
    (r : response) (elapsed : Z) : log_entry :=
  mk_log DEBUG "Received response"
         [("method", PStr method); ("url", PStr (_build_url c endpoint));
          ("status", PInt (status_code r)); ("response_time", PInt elapsed)].

Section OneRequest.

Variable transport : nat -> sent -> Z * outcome exc response.
Variable json_loads : string -> option pyval.
Variable c : APIClient.
Variables method endpoint : string.
Variable o : options.

Local Abbreviation s := (the_sent c method endpoint o).

(** What [parse_body] leaves in [response_data]. *)
Definition body_data (r : response) : pyval :=
  if PyStr.startswith "application/json"
                      (Hdr.get "content-type" "" (headers r))
  then match json_loads (text r) with
       | Some v => v
       | None => PStr (text r)
       end
  else PStr (text r).

(** The result built from a response that took [lat] seconds. *)
Definition result_of (r : response) (lat : Z) : result :=
  mk_result (status_code r) (is_success r) (Hdr.to_dict (headers r))
            (body_data r) (text r) lat r.

(** The world after an attempt that failed with [e]. *)
Definition after_failure (lat : Z) (e : exc) (w : world) : world :=
  mk_world (calls w ++ [s]) (sleeps w)
           ((logs w ++ [making_request c method endpoint o])
              ++ [request_failed c method endpoint e])
           (clock w + lat).

(** The world after an attempt that was answered with [r]. *)
Definition after_success (lat : Z) (r : response) (w : world) : world :=
  mk_world (calls w ++ [s]) (sleeps w)
           ((logs w ++ [making_request c method endpoint o])
              ++ [received_response c method endpoint r lat])
           (clock w + lat).

(** Decoding the body never raises and touches nothing. *)
Lemma parse_body_eq (r : response) (w : world) :
  parse_body json_loads r w = Some (Returned (body_data r), w).
Proof.
  unfold parse_body, body_data, try_except, response_json.
  destruct (PyStr.startswith _ _); [|reflexivity].
  destruct (json_loads (text r)); reflexivity.
Qed.

(** An attempt whose transport call raises: the exception is logged
    and raised again. *)
Lemma request_body_raises (w : world) (lat : Z) (e : exc) :
  transport (List.length (calls w)) s = (lat, Raised e) ->
  request_body transport json_loads c method endpoint o w
  = Some (Raised e, after_failure lat e w).
Proof.
  intros Ht.
  unfold request_body, bind, try_except, log, time_time, client_request.
  cbn [calls sleeps logs clock].
  fold (the_sent c method endpoint o). rewrite Ht.
  reflexivity.
Qed.

(** An attempt whose transport call is answered: the result is built
    and returned. *)
Lemma request_body_returns (w : world) (lat : Z) (r : response) :
  transport (List.length (calls w)) s = (lat, Returned r) ->
  request_body transport json_loads c method endpoint o w
  = Some (Returned (result_of r lat), after_success lat r w).
Proof.
  intros Ht.
  unfold request_body, bind, try_except, log, time_time, client_request.
  cbn [calls sleeps logs clock].
  fold (the_sent c method endpoint o). rewrite Ht.
  cbn [fst snd calls sleeps logs clock].
  fold (try_except (E := exc) (E' := exc) (A := pyval)).
  rewrite parse_body_eq.
  cbn [calls sleeps logs clock].
  unfold result_of, after_success, received_response.
  replace (clock w + lat - clock w) with lat by lia.
  reflexivity.
Qed.

(* ------------------------------------------------------------------- *)
(** *** The attempts of one call, as a relation *)

Local Abbreviation policy := request_retry.
Local Abbreviation body := (request_body transport json_loads c method endpoint o).

(** [attempts n w out w']: starting attempt number [n] in world [w],
    the decorated [request] ends with [out] in world [w']. *)
Inductive attempts : nat -> world -> outcome raised result -> world -> Prop :=
| attempt_answered n w lat r :
    transport (List.length (calls w)) s = (lat, Returned r) ->
    attempts n w (Returned (result_of r lat)) (after_success lat r w)
| attempt_rejected n w lat e :
    transport (List.length (calls w)) s = (lat, Raised e) ->
    Tenacity.retry policy e = false ->
    attempts n w (Raised (Propagated e)) (after_failure lat e w)
| attempt_last n w lat e :
    transport (List.length (calls w)) s = (lat, Raised e) ->
    Tenacity.retry policy e = true ->
    (3 <= n)%nat ->
    attempts n w (Raised (RetryError e)) (after_failure lat e w)
| attempt_again n w lat e out w' :
    transport (List.length (calls w)) s = (lat, Raised e) ->
    Tenacity.retry policy e = true ->
    (n < 3)%nat ->
    attempts (S n) (slept (Tenacity.wait policy n) (after_failure lat e w))
             out w' ->
    attempts n w out w'.

(** One round of the loop, spelled out. *)
Lemma call_unfold (fuel n : nat) (w : world) :
  Tenacity.call (S fuel) policy body n w =
  match body w with
  | None => None
  | Some (Returned a, w1) => Some (Returned a, w1)
  | Some (Raised e, w1) =>
      if negb (Tenacity.retry policy e) then Some (Raised (Propagated e), w1)
      else if Nat.leb 3 n then Some (Raised (RetryError e), w1)
      else Tenacity.call fuel policy body (S n)
                         (slept (Tenacity.wait policy n) w1)
  end.
Proof.
  cbn [Tenacity.call]. unfold try_except at 1.
  destruct (body w) as [[[a|e] w1]|]; try reflexivity.
  destruct (negb (Tenacity.retry policy e)); [reflexivity|].
  cbn [Tenacity.stop request_retry Tenacity.reraise].
  unfold Tenacity.stop_after_attempt.
  destruct (Nat.leb 3 n); reflexivity.
Qed.

(** The loop computes what the relation describes, given fuel for the
    attempts that are left. *)
Lemma attempts_sound n w out w' :
  attempts n w out w' ->
  forall fuel, (0 < fuel)%nat -> (3 < fuel + n)%nat ->
  Tenacity.call fuel policy body n w = Some (out, w').
Proof.
  induction 1 as [n w lat r Ht | n w lat e Ht Hr | n w lat e Ht Hr Hn
                 | n w lat e out w' Ht Hr Hn _ IH];
    intros [|fuel] Hpos Hfuel; try lia; rewrite call_unfold.
  - now rewrite (request_body_returns _ _ _ Ht).
  - now rewrite (request_body_raises _ _ _ Ht), Hr.
  - rewrite (request_body_raises _ _ _ Ht), Hr. cbn [negb].
    now rewrite (proj2 (Nat.leb_le 3 n) Hn).
  - rewrite (request_body_raises _ _ _ Ht), Hr. cbn [negb].
    rewrite (proj2 (Nat.leb_gt 3 n) Hn). apply IH; lia.
Qed.

(** Every call ends: some outcome is always reached. *)
Lemma attempts_total (k n : nat) (w : world) :
  (3 < k + n)%nat -> exists out w', attempts n w out w'.
Proof.
  revert n w. induction k as [|k IH]; intros n w Hk;
    destruct (transport (List.length (calls w)) s) as [lat [r|e]] eqn:Ht;
    try (eexists; eexists; eapply attempt_answered; eassumption);
    destruct (Tenacity.retry policy e) eqn:Hr;
    try (eexists; eexists; eapply attempt_rejected; eassumption).
  - eexists; eexists; eapply attempt_last; try eassumption. lia.
  - destruct (Nat.leb 3 n) eqn:Hn.
    + apply Nat.leb_le in Hn.
      eexists; eexists; eapply attempt_last; eassumption.
    + apply Nat.leb_gt in Hn.
      destruct (IH (S n) (slept (Tenacity.wait policy n) (after_failure lat e w)))
        as (out & w' & Hrun); [lia|].
      exists out, w'. eapply attempt_again; eassumption.
Qed.

(** [request] is the relation started at attempt 1. *)
Lemma request_attempts (w : world) (out : outcome raised result) (w' : world) :
  request transport json_loads c method endpoint o w = Some (out, w')
  <-> attempts 1 w out w'.
Proof.
  split.
  - intros Hreq.
    destruct (attempts_total 3 1 w) as (out0 & w0 & Hrun); [lia|].
    pose proof (attempts_sound _ _ _ _ Hrun 3%nat ltac:(lia) ltac:(lia)) as Hcall.
    unfold request, request_with in Hreq. rewrite Hcall in Hreq.
    injection Hreq as <- <-. exact Hrun.
  - intros Hrun. apply (attempts_sound _ _ _ _ Hrun); lia.
Qed.

(** [request] always ends, and extra fuel changes nothing. *)
Lemma request_fuel_enough (w : world) :
  exists out w',
    request transport json_loads c method endpoint o w = Some (out, w')
    /\ forall fuel, (3 <= fuel)%nat ->
         request_with transport json_loads fuel c method endpoint o w
         = Some (out, w').
Proof.
  destruct (attempts_total 3 1 w) as (out & w' & Hrun); [lia|].
  exists out, w'. split.
  - now apply request_attempts.
  - intros fuel Hfuel. apply (attempts_sound _ _ _ _ Hrun); lia.
Qed.

(** What a run leaves behind: between one and three calls, all of them
    the same; a sleep before every call but the first; and an outcome
    that is the transport's last reply, wrapped or not. *)
Lemma attempts_summary n w out w' :
  attempts n w out w' ->
  exists k lat,
    (1 <= k)%nat /\ (k + n <= 4 \/ k = 1)%nat
    /\ calls w' = (calls w ++ repeat s k)%list
    /\ sleeps w' = (sleeps w ++ map (Tenacity.wait policy) (seq n (k - 1)))%list
    /\ match out with
       | Returned res =>
           exists r,
             transport (List.length (calls w) + (k - 1)) s = (lat, Returned r)
             /\ res = result_of r lat
       | Raised (Propagated e) =>
           transport (List.length (calls w) + (k - 1)) s = (lat, Raised e)
           /\ Tenacity.retry policy e = false
       | Raised (RetryError e) =>
           transport (List.length (calls w) + (k - 1)) s = (lat, Raised e)
           /\ Tenacity.retry policy e = true
           /\ (3 <= n + (k - 1))%nat
       end.
Proof.
  induction 1 as [n w lat r Ht | n w lat e Ht Hr | n w lat e Ht Hr Hn
                 | n w lat e out w' Ht Hr Hn _ IH].
  - exists 1%nat, lat. cbn [repeat seq map Nat.sub calls sleeps after_success].
    rewrite Nat.add_0_r, app_nil_r. repeat split; try lia. now exists r.
  - exists 1%nat, lat. cbn [repeat seq map Nat.sub calls sleeps after_failure].
    rewrite Nat.add_0_r, app_nil_r. repeat split; try lia; assumption.
  - exists 1%nat, lat. cbn [repeat seq map Nat.sub calls sleeps after_failure].
    rewrite Nat.add_0_r, app_nil_r. repeat split; try lia; assumption.
  - destruct IH as (k & lat' & Hk & Hbound & Hcalls & Hsleeps & Hout).
    cbn [calls sleeps slept after_failure] in Hcalls, Hsleeps, Hout.
    exists (S k), lat'. repeat split; try lia.
    + rewrite Hcalls, <- app_assoc. reflexivity.
    + rewrite Hsleeps, <- app_assoc.
      destruct k as [|k]; [lia|].
      cbn [Nat.sub seq map app]. rewrite Nat.sub_0_r. reflexivity.
    + rewrite last_length in Hout.
      replace (List.length (calls w) + (S k - 1))%nat
        with (S (List.length (calls w)) + (k - 1))%nat by lia.
      destruct out as [res | [e' | e']]; [exact Hout | exact Hout |].
      destruct Hout as (H1 & H2 & H3). repeat split; trivial. lia.
Qed.

End OneRequest.

(* ===================================================================== *)
(** ** The retry policy of [request] *)
(* ===================================================================== *)

(** [ReadTimeout] derives from [RequestError], so the tuple given to
    [retry_if_exception_type] selects the instances of [RequestError]. *)
Lemma retry_iff_request_error (e : exc) :
  Tenacity.retry request_retry e = isinstance e RequestError.
Proof.
  destruct e as [[] msg]; reflexivity.
Qed.

Lemma connect_error_retried (e : exc) :
  isinstance e ConnectError = true -> Tenacity.retry request_retry e = true.
Proof.
  destruct e as [[] msg]; simpl; intros H; try discriminate H; reflexivity.
Qed.

(** The waits [wait_exponential(multiplier=1, min=2, max=10)] gives:
    [2 ** (n - 1)] seconds, at least 2 and at most 10. *)
Lemma wait_formula (n : nat) :
  Tenacity.wait request_retry n = Z.max 2 (Z.min (2 ^ (Z.of_nat n - 1)) 10).
Proof.
  cbn [Tenacity.wait request_retry]. unfold Tenacity.wait_exponential.
  rewrite Z.mul_1_l. reflexivity.
Qed.

Lemma wait_bounds (n : nat) : 2 <= Tenacity.wait request_retry n <= 10.
Proof. rewrite wait_formula. lia. Qed.

Section Scenarios.

Variable transport : nat -> sent -> Z * outcome exc response.
Variable json_loads : string -> option pyval.
Variable c : APIClient.
Variables method endpoint : string.
Variable o : options.
Variable w : world.

Local Abbreviation s := (the_sent c method endpoint o).
Local Abbreviation n0 := (List.length (calls w)).

(** Two retried failures, then an answer. *)
Lemma run_fail_fail_answer e1 e2 l1 l2 l3 r :
  transport n0 s = (l1, Raised e1) ->
  Tenacity.retry request_retry e1 = true ->
  transport (S n0) s = (l2, Raised e2) ->
  Tenacity.retry request_retry e2 = true ->
  transport (S (S n0)) s = (l3, Returned r) ->
  request transport json_loads c method endpoint o w
  = Some (Returned (result_of json_loads r l3),
          after_success c method endpoint o l3 r
            (slept 2 (after_failure c method endpoint o l2 e2
               (slept 2 (after_failure c method endpoint o l1 e1 w))))).
Proof.
  intros H1 R1 H2 R2 H3. apply request_attempts.
  eapply attempt_again; [exact H1 | exact R1 | lia |].
  eapply attempt_again;
    [cbn [calls slept after_failure]; rewrite last_length; exact H2
    | exact R2 | lia |].
  eapply attempt_answered.
  cbn [calls slept after_failure]. rewrite !last_length. exact H3.
Qed.

(** Three retried failures. *)
Lemma run_fail_fail_fail e1 e2 e3 l1 l2 l3 :
  transport n0 s = (l1, Raised e1) ->
  Tenacity.retry request_retry e1 = true ->
  transport (S n0) s = (l2, Raised e2) ->
  Tenacity.retry request_retry e2 = true ->
  transport (S (S n0)) s = (l3, Raised e3) ->
  Tenacity.retry request_retry e3 = true ->
  request transport json_loads c method endpoint o w
  = Some (Raised (RetryError e3),
          after_failure c method endpoint o l3 e3
            (slept 2 (after_failure c method endpoint o l2 e2
               (slept 2 (after_failure c method endpoint o l1 e1 w))))).
Proof.
  intros H1 R1 H2 R2 H3 R3. apply request_attempts.
  eapply attempt_again; [exact H1 | exact R1 | lia |].
  eapply attempt_again;
    [cbn [calls slept after_failure]; rewrite last_length; exact H2
    | exact R2 | lia |].
  eapply attempt_last; [| exact R3 | lia].
  cbn [calls slept after_failure]. rewrite !last_length. exact H3.
Qed.

(** A failure the policy does not retry. *)
Lemma run_rejected e lat :
  transport n0 s = (lat, Raised e) ->
  Tenacity.retry request_retry e = false ->
  request transport json_loads c method endpoint o w
  = Some (Raised (Propagated e), after_failure c method endpoint o lat e w).
Proof.
  intros H R. apply request_attempts. now eapply attempt_rejected.
Qed.

(** An answer at the first attempt. *)
Lemma run_answered r lat :
  transport n0 s = (lat, Returned r) ->
  request transport json_loads c method endpoint o w
  = Some (Returned (result_of json_loads r lat),
          after_success c method endpoint o lat r w).
Proof.
  intros H. apply request_attempts. now eapply attempt_answered.
Qed.

(** A retried failure at the first attempt is followed by a sleep of two
    seconds and at least one more call. *)
Lemma run_retried e lat :
  transport n0 s = (lat, Raised e) ->
  Tenacity.retry request_retry e = true ->
  exists out w' k,
    request transport json_loads c method endpoint o w = Some (out, w')
    /\ (2 <= k <= 3)%nat
    /\ calls w' = (calls w ++ repeat s k)%list
    /\ exists rest, sleeps w' = (sleeps w ++ 2 :: rest)%list.
Proof.
  intros H R.
  destruct (request_fuel_enough transport json_loads c method endpoint o w)
    as (out & w' & Hreq & _).
  exists out, w'. pose proof Hreq as Hrun. apply request_attempts in Hrun.
  inversion Hrun as [? ? ? ? Ht | ? ? ? ? Ht Hr | ? ? ? ? Ht Hr Hn
                    | ? ? lat' e' ? ? Ht Hr Hn Hnext]; subst;
    try (rewrite H in Ht; congruence); try lia.
  rewrite H in Ht. injection Ht as <- <-.
  apply attempts_summary in Hnext.
  destruct Hnext as (k & lat' & Hk & Hbound & Hcalls & Hsleeps & _).
  cbn [calls sleeps slept after_failure] in Hcalls, Hsleeps.
  exists (S k). repeat split; trivial; try lia.
  - rewrite Hcalls, <- app_assoc. reflexivity.
  - eexists. rewrite Hsleeps, <- app_assoc. reflexivity.
Qed.

End Scenarios.

(* ===================================================================== *)
(** ** Sample transports, used in the examples below *)
(* ===================================================================== *)

(** A decoder that knows a few JSON documents. *)
Definition sample_json_loads (body : string) : option pyval :=
  if String.eqb body "{}" then Some (PDict [])
  else if String.eqb body "[1, 2]" then Some (PList [PInt 1; PInt 2])
  else if String.eqb body "null" then Some PNone
  else if String.eqb body "true" then Some (PBool true)
  else None.

Definition sample_response : response :=
  mk_response 200 [("Content-Type", "application/json; charset=utf-8")]
              "[1, 2]".

Definition connect_error : exc :=
  mk_exc ConnectError "All connection attempts failed".

Definition too_many_redirects : exc :=
  mk_exc TooManyRedirects "Exceeded maximum allowed redirects.".

Definition invalid_url : exc :=
  mk_exc InvalidURL "Invalid non-printable ASCII character in URL".

(** Refuses the connection twice, then answers. *)
Definition flaky_transport (n : nat) (_ : sent) : Z * outcome exc response :=
  match n with
  | 0%nat | 1%nat => (1, Raised connect_error)
  | _ => (1, Returned sample_response)
  end.

(** Fails every call with the same exception. *)
Definition failing_transport (e : exc) (_ : nat) (_ : sent)
    : Z * outcome exc response :=
  (1, Raised e).

(** Answers every call with the same response. *)
Definition answering_transport (r : response) (_ : nat) (_ : sent)
    : Z * outcome exc response :=
  (1, Returned r).

(* ===================================================================== *)
(** ** Retries, back-off and what reaches the caller *)
(* ===================================================================== *)

(** C1 (as the code has it).  When the transport raises a connection
    error on the first two attempts and answers the third, [request]
    returns the result of that answer after exactly three calls, having
    slept 2 seconds and then 2 seconds; when every attempt raises a
    connection error, [request] raises after exactly three calls.  The
    sleep after attempt [n] is [2 ** (n - 1)] seconds, raised to the
    minimum of 2 and capped at 10. *)
Theorem request_retries_with_backoff
    (transport : nat -> sent -> Z * outcome exc response)
    (json_loads : string -> option pyval)
    (c : APIClient) (method endpoint : string) (o : options) (w : world) :
  (forall e1 e2 l1 l2 l3 r,
      transport (List.length (calls w)) (the_sent c method endpoint o)
      = (l1, Raised e1) ->
      isinstance e1 ConnectError = true ->
      transport (S (List.length (calls w))) (the_sent c method endpoint o)
      = (l2, Raised e2) ->
      isinstance e2 ConnectError = true ->
      transport (S (S (List.length (calls w)))) (the_sent c method endpoint o)
      = (l3, Returned r) ->
      exists w',
        request transport json_loads c method endpoint o w
        = Some (Returned (result_of json_loads r l3), w')
        /\ calls w' = (calls w ++ repeat (the_sent c method endpoint o) 3)%list
        /\ sleeps w' = (sleeps w ++ [2; 2])%list)
  /\
  ((forall n, exists lat e,
        transport n (the_sent c method endpoint o) = (lat, Raised e)
        /\ isinstance e ConnectError = true) ->
   exists e w',
     request transport json_loads c method endpoint o w
     = Some (Raised (RetryError e), w')
     /\ calls w' = (calls w ++ repeat (the_sent c method endpoint o) 3)%list
     /\ sleeps w' = (sleeps w ++ [2; 2])%list)
  /\
  (forall n,
      Tenacity.wait request_retry n
      = Z.max 2 (Z.min (2 ^ (Z.of_nat n - 1)) 10)).
Proof.
  split; [|split].
  - intros e1 e2 l1 l2 l3 r H1 C1 H2 C2 H3.
    eexists. split; [|split].
    + apply (run_fail_fail_answer _ _ _ _ _ _ _ e1 e2 l1 l2 l3 r);
        auto using connect_error_retried.
    + cbn [calls slept after_failure after_success repeat].
      now rewrite <- !app_assoc.
    + cbn [sleeps slept after_failure after_success].
      now rewrite <- !app_assoc.
  - intros Hall.
    destruct (Hall (List.length (calls w))) as (l1 & e1 & H1 & C1).
    destruct (Hall (S (List.length (calls w)))) as (l2 & e2 & H2 & C2).
    destruct (Hall (S (S (List.length (calls w))))) as (l3 & e3 & H3 & C3).
    exists e3. eexists. split; [|split].
    + apply (run_fail_fail_fail _ _ _ _ _ _ _ e1 e2 e3 l1 l2 l3);
        auto using connect_error_retried.
    + cbn [calls slept after_failure repeat]. now rewrite <- !app_assoc.
    + cbn [sleeps slept after_failure]. now rewrite <- !app_assoc.
  - apply wait_formula.
Qed.

Lemma request_retries_with_backoff_witness :
  (exists w',
      request flaky_transport sample_json_loads staging_client
              "GET" "posts/1" default_options empty_world
      = Some (Returned (result_of sample_json_loads sample_response 1), w')
      /\ calls w' = (calls empty_world ++
                     repeat (the_sent staging_client "GET" "posts/1"
                                      default_options) 3)%list
      /\ sleeps w' = (sleeps empty_world ++ [2; 2])%list)
  /\
  (exists e w',
      request (failing_transport connect_error) sample_json_loads
              staging_client "GET" "posts/1" default_options empty_world
      = Some (Raised (RetryError e), w')
      /\ calls w' = (calls empty_world ++
                     repeat (the_sent staging_client "GET" "posts/1"
                                      default_options) 3)%list
      /\ sleeps w' = (sleeps empty_world ++ [2; 2])%list).
Proof.
  split.
  - refine (proj1 (request_retries_with_backoff
                     flaky_transport sample_json_loads staging_client
                     "GET" "posts/1" default_options empty_world)
                  connect_error connect_error 1 1 1 sample_response
                  _ _ _ _ _);
      vm_compute; reflexivity.
  - refine (proj1 (proj2 (request_retries_with_backoff
                     (failing_transport connect_error) sample_json_loads
                     staging_client "GET" "posts/1" default_options
                     empty_world)) _).
    intros n. exists 1, connect_error. split; vm_compute; reflexivity.
Defined.

(** C1 as claimed fails: on the transport that refuses two connections
    and then answers, the two sleeps are 2 and 2 seconds, not 2 and 4. *)
Lemma request_backoff_not_2_then_4 :
  exists res w',
    request flaky_transport sample_json_loads staging_client
            "GET" "posts/1" default_options empty_world
    = Some (Returned res, w')
    /\ List.length (calls w') = 3%nat
    /\ sleeps w' = [2; 2]
    /\ sleeps w' <> [2; 4].
Proof.
  vm_compute. eexists. eexists. split; [reflexivity|].
  split; [reflexivity|]. split; [reflexivity|]. discriminate.
Qed.

(** C2 (as the code has it).  When all three attempts fail with an
    exception the policy retries, the caller gets tenacity's
    [RetryError], which carries the exception of the last attempt; each
    of the three exceptions has been logged by the attempt that raised
    it, and nothing else was raised or swallowed on the way. *)
Theorem request_exhausted_raises_retry_error
    (transport : nat -> sent -> Z * outcome exc response)
    (json_loads : string -> option pyval)
    (c : APIClient) (method endpoint : string) (o : options) (w : world)
    (e1 e2 e3 : exc) (l1 l2 l3 : Z) :
  transport (List.length (calls w)) (the_sent c method endpoint o)
  = (l1, Raised e1) ->
  Tenacity.retry request_retry e1 = true ->
  transport (S (List.length (calls w))) (the_sent c method endpoint o)
  = (l2, Raised e2) ->
  Tenacity.retry request_retry e2 = true ->
  transport (S (S (List.length (calls w)))) (the_sent c method endpoint o)
  = (l3, Raised e3) ->
  Tenacity.retry request_retry e3 = true ->
  exists w',
    request transport json_loads c method endpoint o w
    = Some (Raised (RetryError e3), w')
    /\ calls w' = (calls w ++ repeat (the_sent c method endpoint o) 3)%list
    /\ logs w' = (logs w ++
                  [ making_request c method endpoint o;
                    request_failed c method endpoint e1;
                    making_request c method endpoint o;
                    request_failed c method endpoint e2;
                    making_request c method endpoint o;
                    request_failed c method endpoint e3 ])%list.
Proof.
  intros H1 R1 H2 R2 H3 R3. eexists. split; [|split].
  - now apply (run_fail_fail_fail _ _ _ _ _ _ _ e1 e2 e3 l1 l2 l3).
  - cbn [calls slept after_failure repeat]. now rewrite <- !app_assoc.
  - cbn [logs slept after_failure]. now rewrite <- !app_assoc.
Qed.

Lemma request_exhausted_raises_retry_error_witness :
  exists w',
    request (failing_transport connect_error) sample_json_loads
            staging_client "GET" "posts/1" default_options empty_world
    = Some (Raised (RetryError connect_error), w')
    /\ calls w' = (calls empty_world ++
                   repeat (the_sent staging_client "GET" "posts/1"
                                    default_options) 3)%list
    /\ logs w' = (logs empty_world ++
                  [ making_request staging_client "GET" "posts/1" default_options;
                    request_failed staging_client "GET" "posts/1" connect_error;
                    making_request staging_client "GET" "posts/1" default_options;
                    request_failed staging_client "GET" "posts/1" connect_error;
                    making_request staging_client "GET" "posts/1" default_options;
                    request_failed staging_client "GET" "posts/1" connect_error ])%list.
Proof.
  refine (request_exhausted_raises_retry_error
            (failing_transport connect_error) sample_json_loads
            staging_client "GET" "posts/1" default_options empty_world
            connect_error connect_error connect_error 1 1 1
            _ _ _ _ _ _);
    vm_compute; reflexivity.
Defined.

(** C2 as claimed fails: when every attempt raises the same connection
    error, what the caller gets is not that exception but a
    [RetryError] around it. *)
Lemma request_exhausted_not_the_transport_exception :
  exists w',
    request (failing_transport connect_error) sample_json_loads
            staging_client "GET" "posts/1" default_options empty_world
    = Some (Raised (RetryError connect_error), w')
    /\ RetryError connect_error <> Propagated connect_error.
Proof.
  vm_compute. eexists. split; [reflexivity | discriminate].
Qed.

(** The exceptions of the two classes the claim names are instances of
    [RequestError]. *)
Lemma network_and_read_timeout_are_request_errors (e : exc) :
  isinstance e NetworkError = true \/ isinstance e ReadTimeout = true ->
  isinstance e RequestError = true.
Proof.
  destruct e as [[] msg]; simpl; intros [H | H];
    try discriminate H; reflexivity.
Qed.

(** C3 (as the code has it).  An exception raised by the first attempt
    triggers a retry exactly when it is an instance of
    [httpx.RequestError]; connection and network errors and read
    timeouts are such instances.  Any exception outside that class goes
    to the caller as it is, after that one call and without a sleep; an
    exception inside it is followed by a sleep and a further call. *)
Theorem request_retries_request_errors_only
    (transport : nat -> sent -> Z * outcome exc response)
    (json_loads : string -> option pyval)
    (c : APIClient) (method endpoint : string) (o : options) (w : world)
    (lat : Z) (e : exc) :
  transport (List.length (calls w)) (the_sent c method endpoint o)
  = (lat, Raised e) ->
  (Tenacity.retry request_retry e = true <-> isinstance e RequestError = true)
  /\
  (isinstance e NetworkError = true \/ isinstance e ReadTimeout = true ->
   Tenacity.retry request_retry e = true)
  /\
  (isinstance e RequestError = false ->
   exists w',
     request transport json_loads c method endpoint o w
     = Some (Raised (Propagated e), w')
     /\ calls w' = (calls w ++ [the_sent c method endpoint o])%list
     /\ sleeps w' = sleeps w)
  /\
  (isinstance e RequestError = true ->
   exists out w' k,
     request transport json_loads c method endpoint o w = Some (out, w')
     /\ (2 <= k <= 3)%nat
     /\ calls w' = (calls w ++ repeat (the_sent c method endpoint o) k)%list
     /\ exists rest, sleeps w' = (sleeps w ++ 2 :: rest)%list).
Proof.
  intros Ht. split; [|split; [|split]].
  - now rewrite retry_iff_request_error.
  - intros H. rewrite retry_iff_request_error.
    now apply network_and_read_timeout_are_request_errors.
  - intros He. eexists. split; [|split].
    + apply (run_rejected _ _ _ _ _ _ _ e lat Ht).
      now rewrite retry_iff_request_error.
    + reflexivity.
    + reflexivity.
  - intros He. apply (run_retried _ _ _ _ _ _ _ e lat Ht).
    now rewrite retry_iff_request_error.
Qed.

Lemma request_retries_request_errors_only_witness :
  (exists w',
      request (failing_transport invalid_url) sample_json_loads
              staging_client "GET" "posts/1" default_options empty_world
      = Some (Raised (Propagated invalid_url), w')
      /\ calls w' = (calls empty_world ++
                     [the_sent staging_client "GET" "posts/1" default_options])%list
      /\ sleeps w' = sleeps empty_world)
  /\
  (exists out w' k,
      request (failing_transport connect_error) sample_json_loads
              staging_client "GET" "posts/1" default_options empty_world
      = Some (out, w')
      /\ (2 <= k <= 3)%nat
      /\ calls w' = (calls empty_world ++
                     repeat (the_sent staging_client "GET" "posts/1"
                                      default_options) k)%list
      /\ exists rest, sleeps w' = (sleeps empty_world ++ 2 :: rest)%list).
Proof.
  split.
  - refine (proj1 (proj2 (proj2
             (request_retries_request_errors_only
                (failing_transport invalid_url) sample_json_loads
                staging_client "GET" "posts/1" default_options empty_world
                1 invalid_url _))) _);
      vm_compute; reflexivity.
  - refine (proj2 (proj2 (proj2
             (request_retries_request_errors_only
                (failing_transport connect_error) sample_json_loads
                staging_client "GET" "posts/1" default_options empty_world
                1 connect_error _))) _);
      vm_compute; reflexivity.
Defined.

Definition unsupported_protocol : exc :=
  mk_exc UnsupportedProtocol
         "Request URL is missing an 'http://' or 'https://' protocol.".

(** C3 as claimed fails: an exception that is neither a connection or
    network error nor a read timeout can trigger the retries.  Too many
    redirects, and a URL without a scheme (what a relative endpoint
    gives on a client without base URL), are both tried three times. *)
Lemma request_retries_beyond_network_and_read_timeout :
  (isinstance too_many_redirects NetworkError = false
   /\ isinstance too_many_redirects TransportError = false
   /\ isinstance too_many_redirects ReadTimeout = false
   /\ exists w',
       request (failing_transport too_many_redirects) sample_json_loads
               staging_client "GET" "posts/1" default_options empty_world
       = Some (Raised (RetryError too_many_redirects), w')
       /\ List.length (calls w') = 3%nat
       /\ sleeps w' = [2; 2])
  /\
  (isinstance unsupported_protocol NetworkError = false
   /\ isinstance unsupported_protocol ReadTimeout = false
   /\ exists w',
       request (failing_transport unsupported_protocol) sample_json_loads
               (init "" None) "GET" "health" default_options empty_world
       = Some (Raised (RetryError unsupported_protocol), w')
       /\ List.length (calls w') = 3%nat
       /\ sleeps w' = [2; 2]).
Proof.
  vm_compute. repeat split; eexists; repeat split.
Qed.

(* ===================================================================== *)
(** ** The result of an answered call *)
(* ===================================================================== *)

(** What [request] returns is the result built from the last answer. *)
Lemma request_returned_result
    (transport : nat -> sent -> Z * outcome exc response)
    (json_loads : string -> option pyval)
    (c : APIClient) (method endpoint : string) (o : options)
    (w w' : world) (res : result) :
  request transport json_loads c method endpoint o w = Some (Returned res, w') ->
  exists r lat n,
    transport n (the_sent c method endpoint o) = (lat, Returned r)
    /\ res = result_of json_loads r lat.
Proof.
  intros Hreq. apply request_attempts, attempts_summary in Hreq.
  destruct Hreq as (k & lat & _ & _ & _ & _ & r & Ht & Hres).
  now exists r, lat, (List.length (calls w) + (k - 1))%nat.
Qed.

(** What [request] raises was raised by the transport. *)
Lemma request_raised_by_transport
    (transport : nat -> sent -> Z * outcome exc response)
    (json_loads : string -> option pyval)
    (c : APIClient) (method endpoint : string) (o : options)
    (w w' : world) (x : raised) :
  request transport json_loads c method endpoint o w = Some (Raised x, w') ->
  exists e lat n,
    transport n (the_sent c method endpoint o) = (lat, Raised e)
    /\ (x = Propagated e \/ x = RetryError e).
Proof.
  intros Hreq. apply request_attempts, attempts_summary in Hreq.
  destruct Hreq as (k & lat & _ & _ & _ & _ & Hout).
  destruct x as [e | e]; exists e, lat, (List.length (calls w) + (k - 1))%nat.
  - destruct Hout as (Ht & _). split; [exact Ht | now left].
  - destruct Hout as (Ht & _). split; [exact Ht | now right].
Qed.

(** C5.  For a response received by [request]: when its content type
    begins with [application/json] and the body decodes, [data] is the
    decoded value; with any other content type, or a body that does not
    decode, [data] is the response text.  Decoding never raises: an
    attempt whose call is answered returns a result, and whatever
    [request] raises was raised by the transport. *)
Theorem response_data_json_or_text
    (transport : nat -> sent -> Z * outcome exc response)
    (json_loads : string -> option pyval)
    (c : APIClient) (method endpoint : string) (o : options) (w : world) :
  (forall res w',
      request transport json_loads c method endpoint o w
      = Some (Returned res, w') ->
      (forall v,
          PyStr.startswith "application/json"
            (Hdr.get "content-type" "" (headers (r_response res))) = true ->
          json_loads (text (r_response res)) = Some v ->
          r_data res = v)
      /\
      (PyStr.startswith "application/json"
         (Hdr.get "content-type" "" (headers (r_response res))) = false ->
       r_data res = PStr (text (r_response res)))
      /\
      (json_loads (text (r_response res)) = None ->
       r_data res = PStr (text (r_response res))))
  /\
  (forall lat r,
      transport (List.length (calls w)) (the_sent c method endpoint o)
      = (lat, Returned r) ->
      exists res w',
        request_body transport json_loads c method endpoint o w
        = Some (Returned res, w')
        /\ r_response res = r)
  /\
  (forall x w',
      request transport json_loads c method endpoint o w
      = Some (Raised x, w') ->
      exists e lat n,
        transport n (the_sent c method endpoint o) = (lat, Raised e)
        /\ (x = Propagated e \/ x = RetryError e))
  /\
  (exists out w',
      request transport json_loads c method endpoint o w = Some (out, w')).
Proof.
  split; [|split; [|split]].
  - intros res w' Hreq.
    apply request_returned_result in Hreq.
    destruct Hreq as (r & lat & n & _ & ->).
    cbn [r_response r_data result_of]. unfold body_data.
    split; [|split].
    + intros v -> ->. reflexivity.
    + intros ->. reflexivity.
    + intros ->. destruct (PyStr.startswith _ _); reflexivity.
  - intros lat r Ht. eexists. eexists. split.
    + apply (request_body_returns _ _ _ _ _ _ _ _ _ Ht).
    + reflexivity.
  - intros x w'. apply request_raised_by_transport.
  - destruct (request_fuel_enough transport json_loads c method endpoint o w)
      as (out & w' & Hreq & _).
    now exists out, w'.
Qed.

Definition html_response : response :=
  mk_response 200 [("Content-Type", "text/html")] "[1, 2]".

Definition broken_json_response : response :=
  mk_response 200 [("content-type", "application/json")] "{oops".

Lemma response_data_json_or_text_witness :
  (r_data (result_of sample_json_loads sample_response 1)
   = PList [PInt 1; PInt 2])
  /\ (r_data (result_of sample_json_loads html_response 1) = PStr "[1, 2]")
  /\ (r_data (result_of sample_json_loads broken_json_response 1)
      = PStr "{oops").
Proof.
  pose proof (proj1 (response_data_json_or_text
                       (answering_transport sample_response)
                       sample_json_loads staging_client "GET" "posts/1"
                       default_options empty_world)
                    (result_of sample_json_loads sample_response 1)
                    _ (run_answered _ _ _ _ _ _ _ sample_response 1 eq_refl))
    as (Hjson & _ & _).
  pose proof (proj1 (response_data_json_or_text
                       (answering_transport html_response)
                       sample_json_loads staging_client "GET" "posts/1"
                       default_options empty_world)
                    (result_of sample_json_loads html_response 1)
                    _ (run_answered _ _ _ _ _ _ _ html_response 1 eq_refl))
    as (_ & Htext & _).
  pose proof (proj1 (response_data_json_or_text
                       (answering_transport broken_json_response)
                       sample_json_loads staging_client "GET" "posts/1"
                       default_options empty_world)
                    (result_of sample_json_loads broken_json_response 1)
                    _ (run_answered _ _ _ _ _ _ _ broken_json_response 1 eq_refl))
    as (_ & _ & Hbroken).
  split; [|split].
  - apply (Hjson (PList [PInt 1; PInt 2])); vm_compute; reflexivity.
  - apply Htext. vm_compute; reflexivity.
  - apply Hbroken. vm_compute; reflexivity.
Defined.

(** C8.  The [ok] flag of a returned result is true exactly when the
    status code lies in 200..299.  A response with any status, 4xx and
    5xx included, is returned as a result at once: nothing is raised
    and nothing is retried. *)
Theorem ok_flag_iff_2xx
    (transport : nat -> sent -> Z * outcome exc response)
    (json_loads : string -> option pyval)
    (c : APIClient) (method endpoint : string) (o : options) (w : world) :
  (forall res w',
      request transport json_loads c method endpoint o w
      = Some (Returned res, w') ->
      r_status res = status_code (r_response res)
      /\ (r_ok res = true <-> 200 <= r_status res <= 299))
  /\
  (forall lat r,
      transport (List.length (calls w)) (the_sent c method endpoint o)
      = (lat, Returned r) ->
      exists res w',
        request transport json_loads c method endpoint o w
        = Some (Returned res, w')
        /\ r_status res = status_code r
        /\ (r_ok res = true <-> 200 <= status_code r <= 299)
        /\ calls w' = (calls w ++ [the_sent c method endpoint o])%list
        /\ sleeps w' = sleeps w).
Proof.
  assert (Hok : forall r lat,
             r_ok (result_of json_loads r lat) = true
             <-> 200 <= status_code r <= 299).
  { intros r lat. cbn [r_ok result_of]. unfold is_success.
    rewrite andb_true_iff, !Z.leb_le. reflexivity. }
  split.
  - intros res w' Hreq.
    apply request_returned_result in Hreq.
    destruct Hreq as (r & lat & n & _ & ->).
    split; [reflexivity | apply Hok].
  - intros lat r Ht. eexists. eexists. split; [|split; [|split; [|split]]].
    + apply (run_answered _ _ _ _ _ _ _ r lat Ht).
    + reflexivity.
    + apply Hok.
    + reflexivity.
    + reflexivity.
Qed.

Definition not_found_response : response :=
  mk_response 404 [("Content-Type", "text/plain")] "Not Found".

Lemma ok_flag_iff_2xx_witness :
  exists res w',
    request (answering_transport not_found_response) sample_json_loads
            staging_client "GET" "posts/0" default_options empty_world
    = Some (Returned res, w')
    /\ r_status res = status_code not_found_response
    /\ (r_ok res = true <-> 200 <= status_code not_found_response <= 299)
    /\ calls w' = (calls empty_world ++
                   [the_sent staging_client "GET" "posts/0" default_options])%list
    /\ sleeps w' = sleeps empty_world.
Proof.
  refine (proj2 (ok_flag_iff_2xx
                   (answering_transport not_found_response) sample_json_loads
                   staging_client "GET" "posts/0" default_options empty_world)
                1 not_found_response _).
  vm_compute; reflexivity.
Defined.

(* ===================================================================== *)
(** ** What is sent *)
(* ===================================================================== *)

(** Every call of [request] ends, having handed the same call to the
    transport between one and three times. *)
Lemma request_calls
    (transport : nat -> sent -> Z * outcome exc response)
    (json_loads : string -> option pyval)
    (c : APIClient) (method endpoint : string) (o : options) (w : world) :
  exists out w' k,
    request transport json_loads c method endpoint o w = Some (out, w')
    /\ (1 <= k <= 3)%nat
    /\ calls w' = (calls w ++ repeat (the_sent c method endpoint o) k)%list.
Proof.
  destruct (request_fuel_enough transport json_loads c method endpoint o w)
    as (out & w' & Hreq & _).
  pose proof Hreq as Hrun. apply request_attempts, attempts_summary in Hrun.
  destruct Hrun as (k & lat & Hk & Hbound & Hcalls & _).
  exists out, w', k. repeat split; trivial; lia.
Qed.

(** The keyword arguments that make [httpx] send a body.  ([data] is a
    fourth, but that name is a parameter of [request].) *)
Definition body_options : list string := ["json"; "content"; "files"].

Module KwFacts.

Lemma kw_get_set (k k' : string) (v : kwarg) (kw : request_kwargs) :
  KwArgs.get k (KwArgs.set k' v kw)
  = if String.eqb k k' then Some v else KwArgs.get k kw.
Proof.
  induction kw as [|[k0 v0] kw IH].
  - reflexivity.
  - cbn [KwArgs.set]. destruct (String.eqb k' k0) eqn:H0.
    + apply String.eqb_eq in H0. subst k0. cbn [KwArgs.get].
      destruct (String.eqb k k'); reflexivity.
    + cbn [KwArgs.get]. rewrite IH.
      destruct (String.eqb k k0) eqn:Hk; [|reflexivity].
      apply String.eqb_eq in Hk. subst k0.
      rewrite String.eqb_sym in H0. now rewrite H0.
Qed.

Lemma get_spread_other (k : string) (other : list (string * pyval))
    (kw : request_kwargs) :
  ~ In k (map fst other) ->
  KwArgs.get k (KwArgs.spread kw other) = KwArgs.get k kw.
Proof.
  unfold KwArgs.spread. revert kw.
  induction other as [|[k0 v0] other IH]; intros kw Hnotin; [reflexivity|].
  cbn [fold_left fst snd map In] in *.
  rewrite IH by (intros H; apply Hnotin; now right).
  rewrite kw_get_set. destruct (String.eqb k k0) eqn:Hk; [|reflexivity].
  apply String.eqb_eq in Hk. exfalso. apply Hnotin. left. now symmetry.
Qed.

Lemma extra_kwargs_keys (k : string) (o : options) :
  In k (map fst (extra_kwargs o)) ->
  In k (map fst (kwargs o)) /\ is_parameter_name k = false.
Proof.
  unfold extra_kwargs. intros H. apply in_map_iff in H as ([k0 v0] & <- & H).
  apply filter_In in H as (Hin & Hp). cbn [fst] in *. split.
  - apply in_map_iff. now exists (k0, v0).
  - now apply negb_true_iff in Hp.
Qed.

(** The keywords [request] sets, read back from the dictionary it
    builds; any other keyword is as the extra options have it. *)
Lemma get_build_kwargs (k : string) (o : options) :
  KwArgs.get k (build_kwargs o)
  = if (String.eqb k "json" && is_not_none (data o)
        && is_dict_or_list (data o))%bool
    then Some (KwValue (data o))
    else if (String.eqb k "content" && is_not_none (data o)
             && negb (is_dict_or_list (data o)))%bool
    then Some (KwValue (PStr (py_str (data o))))
    else if (String.eqb k "headers"
             && match req_headers o with
                | Some h => PyDict.truthy h
                | None => false
                end)%bool
    then match req_headers o with
         | Some h => Some (KwHeaders h)
         | None => None
         end
    else KwArgs.get k
           (KwArgs.spread [ ("params", KwValue (params o));
                            ("timeout", KwValue (PInt (timeout o))) ]
                          (extra_kwargs o)).
Proof.
  unfold build_kwargs.
  destruct (is_not_none (data o)), (is_dict_or_list (data o));
    rewrite ?kw_get_set, ?andb_true_r, ?andb_false_r; cbn [negb andb];
    rewrite ?andb_true_r, ?andb_false_r;
    destruct (req_headers o) as [h|];
    try destruct (PyDict.truthy h);
    rewrite ?kw_get_set, ?andb_true_r, ?andb_false_r;
    repeat match goal with
           | |- context [String.eqb k ?x] =>
               destruct (String.eqb k x) eqn:?; subst
           end;
    try reflexivity;
    repeat match goal with
           | H : String.eqb k _ = true |- _ =>
               apply String.eqb_eq in H; subst k
           end;
    try discriminate; reflexivity.
Qed.

(** A keyword that the extra options do not hold, and that is neither
    [params] nor [timeout], is not in the dictionary they start. *)
Lemma get_start_absent (k : string) (o : options) :
  ~ In k (map fst (kwargs o)) ->
  String.eqb k "params" = false ->
  String.eqb k "timeout" = false ->
  KwArgs.get k
    (KwArgs.spread [ ("params", KwValue (params o));
                     ("timeout", KwValue (PInt (timeout o))) ]
                   (extra_kwargs o))
  = None.
Proof.
  intros Hnotin Hp Ht. rewrite get_spread_other.
  - cbn [KwArgs.get]. now rewrite Hp, Ht.
  - intros H. apply extra_kwargs_keys in H as (H & _). now apply Hnotin.
Qed.

(** A parameter name is never among the extra options. *)
Lemma get_start_parameter (k : string) (o : options) :
  is_parameter_name k = true ->
  KwArgs.get k
    (KwArgs.spread [ ("params", KwValue (params o));
                     ("timeout", KwValue (PInt (timeout o))) ]
                   (extra_kwargs o))
  = KwArgs.get k [ ("params", KwValue (params o));
                   ("timeout", KwValue (PInt (timeout o))) ].
Proof.
  intros Hp. apply get_spread_other.
  intros H. apply extra_kwargs_keys in H as (_ & H). congruence.
Qed.

End KwFacts.

(** C7 (as the code has it).  Every call [request] hands to the
    transport carries the body chosen from [data]: a [dict] or a [list]
    goes under [json], to be serialised as JSON; any other value that
    is not [None] goes under [content] as its [str]; each replaces an
    extra option of the same name.  When the extra keyword options hold
    no body option of their own ([json], [content], [files]), that is
    the only body option of the call, and with [data] at [None] there
    is none: no body is sent. *)
Theorem request_body_from_data
    (transport : nat -> sent -> Z * outcome exc response)
    (json_loads : string -> option pyval)
    (c : APIClient) (method endpoint : string) (o : options) (w : world) :
  exists out w' k,
    request transport json_loads c method endpoint o w = Some (out, w')
    /\ (1 <= k <= 3)%nat
    /\ calls w' = (calls w ++ repeat (the_sent c method endpoint o) k)%list
    /\ (forall items, data o = PDict items ->
          kw_json (sent_kwargs (the_sent c method endpoint o))
          = Some (PDict items))
    /\ (forall items, data o = PList items ->
          kw_json (sent_kwargs (the_sent c method endpoint o))
          = Some (PList items))
    /\ (data o <> PNone ->
        (forall items, data o <> PDict items) ->
        (forall items, data o <> PList items) ->
        kw_content (sent_kwargs (the_sent c method endpoint o))
        = Some (PStr (py_str (data o))))
    /\ ((forall key, In key body_options -> ~ In key (map fst (kwargs o))) ->
        (is_dict_or_list (data o) = true ->
         kw_content (sent_kwargs (the_sent c method endpoint o)) = None
         /\ kw_files (sent_kwargs (the_sent c method endpoint o)) = None)
        /\
        (data o <> PNone -> is_dict_or_list (data o) = false ->
         kw_json (sent_kwargs (the_sent c method endpoint o)) = None
         /\ kw_files (sent_kwargs (the_sent c method endpoint o)) = None)
        /\
        (data o = PNone ->
         kw_json (sent_kwargs (the_sent c method endpoint o)) = None
         /\ kw_content (sent_kwargs (the_sent c method endpoint o)) = None
         /\ kw_files (sent_kwargs (the_sent c method endpoint o)) = None)).
Proof.
  destruct (request_calls transport json_loads c method endpoint o w)
    as (out & w' & k & Hreq & Hk & Hcalls).
  exists out, w', k.
  split; [exact Hreq|]. split; [exact Hk|]. split; [exact Hcalls|].
  cbn [sent_kwargs the_sent].
  unfold kw_json, kw_content, kw_files, kw_value.
  split; [|split; [|split]].
  - intros items Hd. rewrite KwFacts.get_build_kwargs, Hd. reflexivity.
  - intros items Hd. rewrite KwFacts.get_build_kwargs, Hd. reflexivity.
  - intros Hnone Hdict Hlist. rewrite KwFacts.get_build_kwargs.
    destruct (data o) as [| b | n | t | items | items];
      first [ reflexivity | congruence
            | now contradiction (Hlist items)
            | now contradiction (Hdict items) ].
  - intros Hfree.
    assert (Hjson : ~ In "json" (map fst (kwargs o)))
      by (apply Hfree; cbn; tauto).
    assert (Hcontent : ~ In "content" (map fst (kwargs o)))
      by (apply Hfree; cbn; tauto).
    assert (Hfiles : ~ In "files" (map fst (kwargs o)))
      by (apply Hfree; cbn; tauto).
    rewrite !KwFacts.get_build_kwargs.
    rewrite (KwFacts.get_start_absent "json" o Hjson eq_refl eq_refl).
    rewrite (KwFacts.get_start_absent "content" o Hcontent eq_refl eq_refl).
    rewrite (KwFacts.get_start_absent "files" o Hfiles eq_refl eq_refl).
    split; [|split].
    + intros Hs. rewrite Hs.
      destruct (is_not_none (data o)); split; reflexivity.
    + intros Hnone Hs. rewrite Hs.
      destruct (is_not_none (data o)); split; reflexivity.
    + intros ->. repeat split.
Qed.

Lemma request_body_from_data_witness :
  (kw_json (sent_kwargs (the_sent staging_client "POST" "posts"
              (with_data (PDict [("title", PStr "x")]) default_options)))
   = Some (PDict [("title", PStr "x")]))
  /\ (kw_json (sent_kwargs (the_sent staging_client "POST" "posts"
                 (with_data (PList [PInt 1; PInt 2]) default_options)))
      = Some (PList [PInt 1; PInt 2]))
  /\ (kw_content (sent_kwargs (the_sent staging_client "POST" "posts"
                    (with_data (PInt 42) default_options)))
      = Some (PStr (py_str (PInt 42))))
  /\ (kw_json (sent_kwargs (the_sent staging_client "GET" "posts"
                 default_options)) = None
      /\ kw_content (sent_kwargs (the_sent staging_client "GET" "posts"
                       default_options)) = None
      /\ kw_files (sent_kwargs (the_sent staging_client "GET" "posts"
                     default_options)) = None).
Proof.
  split; [|split; [|split]].
  - destruct (request_body_from_data
                (answering_transport sample_response) sample_json_loads
                staging_client "POST" "posts"
                (with_data (PDict [("title", PStr "x")]) default_options)
                empty_world)
      as (out & w' & k & _ & _ & _ & Hdict & _).
    apply (Hdict _ eq_refl).
  - destruct (request_body_from_data
                (answering_transport sample_response) sample_json_loads
                staging_client "POST" "posts"
                (with_data (PList [PInt 1; PInt 2]) default_options)
                empty_world)
      as (out & w' & k & _ & _ & _ & _ & Hlist & _).
    apply (Hlist _ eq_refl).
  - destruct (request_body_from_data
                (answering_transport sample_response) sample_json_loads
                staging_client "POST" "posts"
                (with_data (PInt 42) default_options)
                empty_world)
      as (out & w' & k & _ & _ & _ & _ & _ & Hscalar & _).
    apply Hscalar; discriminate.
  - destruct (request_body_from_data
                (answering_transport sample_response) sample_json_loads
                staging_client "GET" "posts" default_options
                empty_world)
      as (out & w' & k & _ & _ & _ & _ & _ & _ & Hfree).
    apply Hfree; [intros key _ [] | reflexivity].
Defined.

(** Extra options that bring a body of their own. *)
Definition json_in_kwargs : options :=
  mk_options PNone PNone None 30 [("json", PDict [("title", PStr "x")])].

Definition content_in_kwargs : options :=
  mk_options (PDict [("title", PStr "x")]) PNone None 30
             [("content", PStr "raw")].

(** C7 as claimed fails: with [data] at [None] and [json] among the
    extra options the call carries a JSON body; with a [dict] as [data]
    and [content] among the extra options the call carries that raw
    content next to the JSON one. *)
Lemma body_option_passed_through :
  (exists out w',
      request (answering_transport sample_response) sample_json_loads
              staging_client "POST" "posts" json_in_kwargs empty_world
      = Some (out, w')
      /\ data json_in_kwargs = PNone
      /\ map (fun s => kw_json (sent_kwargs s)) (calls w')
         = [Some (PDict [("title", PStr "x")])]
      /\ map (fun s => kw_json (sent_kwargs s)) (calls w') <> [None])
  /\
  (exists out w',
      request (answering_transport sample_response) sample_json_loads
              staging_client "POST" "posts" content_in_kwargs empty_world
      = Some (out, w')
      /\ map (fun s => kw_content (sent_kwargs s)) (calls w')
         = [Some (PStr "raw")]
      /\ map (fun s => kw_content (sent_kwargs s)) (calls w') <> [None]).
Proof.
  vm_compute. split; eexists; eexists; repeat split; discriminate.
Qed.

(* ===================================================================== *)
(** ** [health_check] *)
(* ===================================================================== *)

(** The options [health_check] passes to [get]. *)
Definition health_options : options := with_timeout 5 default_options.

Lemma timeout_retried (e : exc) :
  isinstance e TimeoutException = true ->
  Tenacity.retry request_retry e = true.
Proof.
  destruct e as [[] msg]; simpl; intros H; try discriminate H; reflexivity.
Qed.

Lemma health_check_of_get
    (transport : nat -> sent -> Z * outcome exc response)
    (json_loads : string -> option pyval)
    (c : APIClient) (w w' : world) (out : outcome raised result) :
  request transport json_loads c "GET" "health" health_options w
  = Some (out, w') ->
  health_check transport json_loads c w
  = Some (Returned match out with
                   | Returned res => r_status res =? 200
                   | Raised _ => false
                   end, w').
Proof.
  intros Hreq. unfold health_check, try_except, bind, get.
  fold health_options. rewrite Hreq. now destruct out.
Qed.

(** C6.  [health_check] always returns a boolean and never raises.  It
    does what [get("health", timeout=5.0)] does and nothing more: every
    call is a [GET] of the URL built from the endpoint ["health"] with
    a timeout of 5 seconds.  It returns [True] exactly when that [get]
    returned a result whose status is 200, and [False] when the status
    is another one or when [get] raised, whatever the exception: one
    that is not retried, or timeouts on all three attempts. *)
Theorem health_check_never_raises
    (transport : nat -> sent -> Z * outcome exc response)
    (json_loads : string -> option pyval)
    (c : APIClient) (w : world) :
  (exists b out w' k,
      get transport json_loads c "health" health_options w = Some (out, w')
      /\ health_check transport json_loads c w = Some (Returned b, w')
      /\ (b = true <-> exists res, out = Returned res /\ r_status res = 200)
      /\ (1 <= k <= 3)%nat
      /\ calls w'
         = (calls w ++ repeat (the_sent c "GET" "health" health_options) k)%list
      /\ sent_method (the_sent c "GET" "health" health_options) = "GET"
      /\ sent_url (the_sent c "GET" "health" health_options)
         = _build_url c "health"
      /\ kw_timeout (sent_kwargs (the_sent c "GET" "health" health_options))
         = Some (PInt 5))
  /\
  (forall lat r,
      transport (List.length (calls w)) (the_sent c "GET" "health" health_options)
      = (lat, Returned r) ->
      health_check transport json_loads c w
      = Some (Returned (status_code r =? 200),
              after_success c "GET" "health" health_options lat r w))
  /\
  (forall lat e,
      transport (List.length (calls w)) (the_sent c "GET" "health" health_options)
      = (lat, Raised e) ->
      isinstance e RequestError = false ->
      health_check transport json_loads c w
      = Some (Returned false,
              after_failure c "GET" "health" health_options lat e w))
  /\
  ((forall n, exists lat e,
        transport n (the_sent c "GET" "health" health_options) = (lat, Raised e)
        /\ isinstance e TimeoutException = true) ->
   exists w',
     health_check transport json_loads c w = Some (Returned false, w')
     /\ calls w'
        = (calls w ++ repeat (the_sent c "GET" "health" health_options) 3)%list).
Proof.
  split; [|split; [|split]].
  - destruct (request_calls transport json_loads c "GET" "health"
                            health_options w)
      as (out & w' & k & Hreq & Hk & Hcalls).
    exists (match out with
            | Returned res => r_status res =? 200
            | Raised _ => false
            end), out, w', k.
    split; [exact Hreq|].
    split; [now apply health_check_of_get|].
    split; [|repeat split; trivial; lia].
    destruct out as [res | x]; split.
    + intros Hb. exists res. split; [reflexivity | now apply Z.eqb_eq].
    + intros (res' & Heq & Hstatus). injection Heq as <-. now apply Z.eqb_eq.
    + discriminate.
    + intros (res' & Heq & _). discriminate Heq.
  - intros lat r Ht.
    apply (health_check_of_get _ _ _ _ _ _
             (run_answered _ _ _ _ _ _ _ r lat Ht)).
  - intros lat e Ht He. rewrite <- retry_iff_request_error in He.
    apply (health_check_of_get _ _ _ _ _ _
             (run_rejected _ _ _ _ _ _ _ e lat Ht He)).
  - intros Hall.
    destruct (Hall (List.length (calls w))) as (l1 & e1 & H1 & T1).
    destruct (Hall (S (List.length (calls w)))) as (l2 & e2 & H2 & T2).
    destruct (Hall (S (S (List.length (calls w))))) as (l3 & e3 & H3 & T3).
    eexists. split.
    + apply (health_check_of_get _ _ _ _ _ _
               (run_fail_fail_fail _ _ _ _ _ _ _ e1 e2 e3 l1 l2 l3
                  H1 (timeout_retried _ T1) H2 (timeout_retried _ T2)
                  H3 (timeout_retried _ T3))).
    + cbn [calls slept after_failure repeat]. now rewrite <- !app_assoc.
Qed.

Definition read_timeout : exc := mk_exc ReadTimeout "The read operation timed out".

(** A transport that times out on every call: [health_check] is
    [False], after the three attempts of the [get] under it. *)
Example health_check_on_timeout :
  exists w',
    health_check (failing_transport read_timeout) sample_json_loads
                 staging_client empty_world
    = Some (Returned false, w')
    /\ List.length (calls w') = 3%nat.
Proof.
  vm_compute. eexists. split; reflexivity.
Qed.

(** A healthy service, and one that answers 404. *)
Example health_check_on_200 :
  exists w',
    health_check (answering_transport sample_response) sample_json_loads
                 staging_client empty_world
    = Some (Returned true, w').
Proof.
  vm_compute. eexists. reflexivity.
Qed.

Example health_check_on_404 :
  exists w',
    health_check (answering_transport not_found_response) sample_json_loads
                 staging_client empty_world
    = Some (Returned false, w').
Proof.
  vm_compute. eexists. reflexivity.
Qed.

Lemma health_check_never_raises_witness :
  health_check (answering_transport sample_response) sample_json_loads
               staging_client empty_world
  = Some (Returned (status_code sample_response =? 200),
          after_success staging_client "GET" "health" health_options 1
                        sample_response empty_world)
  /\ health_check (answering_transport not_found_response) sample_json_loads
                  staging_client empty_world
     = Some (Returned (status_code not_found_response =? 200),
             after_success staging_client "GET" "health" health_options 1
                           not_found_response empty_world)
  /\ health_check (failing_transport invalid_url) sample_json_loads
                  staging_client empty_world
     = Some (Returned false,
             after_failure staging_client "GET" "health" health_options 1
                           invalid_url empty_world)
  /\ exists w',
       health_check (failing_transport read_timeout) sample_json_loads
                    staging_client empty_world
       = Some (Returned false, w')
       /\ calls w'
          = (calls empty_world
               ++ repeat (the_sent staging_client "GET" "health"
                                   health_options) 3)%list.
Proof.
  split; [|split; [|split]].
  - refine (proj1 (proj2 (health_check_never_raises
                            (answering_transport sample_response)
                            sample_json_loads staging_client empty_world))
                  1 sample_response _).
    vm_compute; reflexivity.
  - refine (proj1 (proj2 (health_check_never_raises
                            (answering_transport not_found_response)
                            sample_json_loads staging_client empty_world))
                  1 not_found_response _).
    vm_compute; reflexivity.
  - refine (proj1 (proj2 (proj2 (health_check_never_raises
                                   (failing_transport invalid_url)
                                   sample_json_loads staging_client
                                   empty_world)))
                  1 invalid_url _ _);
      vm_compute; reflexivity.
  - refine (proj2 (proj2 (proj2 (health_check_never_raises
                                   (failing_transport read_timeout)
                                   sample_json_loads staging_client
                                   empty_world))) _).
    intros n. exists 1, read_timeout. split; vm_compute; reflexivity.
Defined.

(* ===================================================================== *)
(** ** Facts about header collections *)
(* ===================================================================== *)

Module HdrFacts.
Import Hdr.

Lemma same_key_refl (k : string) : same_key k k = true.
Proof. apply String.eqb_refl. Qed.

Lemma same_key_sym (k k' : string) : same_key k k' = same_key k' k.
Proof. apply String.eqb_sym. Qed.

(** Keys that compare equal are looked up alike. *)
Lemma same_key_congr (k k' x : string) :
  same_key k k' = true -> same_key k x = same_key k' x.
Proof.
  unfold same_key. intros H. apply String.eqb_eq in H. now rewrite H.
Qed.

Lemma values_cons (key k v : string) (h : Headers) :
  values key ((k, v) :: h)
  = if same_key key k then v :: values key h else values key h.
Proof.
  unfold values. cbn [filter fst]. destruct (same_key key k); reflexivity.
Qed.

Lemma values_app (key : string) (h h' : Headers) :
  values key (h ++ h')%list = (values key h ++ values key h')%list.
Proof. unfold values. now rewrite filter_app, map_app. Qed.

Lemma values_remove_same (key : string) (h : Headers) :
  values key (remove key h) = [].
Proof.
  induction h as [|[k v] h IH]; [reflexivity|].
  unfold remove in *. cbn [filter fst].
  destruct (same_key key k) eqn:Hk; cbn [negb]; [exact IH|].
  rewrite values_cons, Hk. exact IH.
Qed.

Lemma values_remove_other (key k : string) (h : Headers) :
  same_key k key = false ->
  values k (remove key h) = values k h.
Proof.
  intros Hne. induction h as [|[k0 v0] h IH]; [reflexivity|].
  unfold remove in *. cbn [filter fst]. rewrite values_cons.
  destruct (same_key key k0) eqn:Hk; cbn [negb].
  - rewrite IH. rewrite same_key_sym in Hne.
    rewrite (same_key_sym k k0), <- (same_key_congr key k0 k Hk), Hne.
    reflexivity.
  - rewrite values_cons, IH. reflexivity.
Qed.

(** After [h[key] = value] the only value under [key] is [value]. *)
Lemma values_set_same (key value : string) (h : Headers) :
  values key (set key value h) = [value].
Proof.
  induction h as [|[k v] h IH].
  - cbn [set]. now rewrite values_cons, same_key_refl.
  - cbn [set]. destruct (same_key key k) eqn:Hk.
    + now rewrite values_cons, same_key_refl, values_remove_same.
    + now rewrite values_cons, Hk.
Qed.

(** [h[key] = value] leaves every other key as it was. *)
Lemma values_set_other (key value k : string) (h : Headers) :
  same_key k key = false ->
  values k (set key value h) = values k h.
Proof.
  intros Hne. induction h as [|[k0 v0] h IH].
  - cbn [set]. now rewrite values_cons, Hne.
  - cbn [set]. destruct (same_key key k0) eqn:Hk.
    + rewrite !values_cons, Hne, values_remove_other by exact Hne.
      rewrite same_key_sym in Hne.
      rewrite (same_key_sym k k0), <- (same_key_congr key k0 k Hk), Hne.
      reflexivity.
    + rewrite !values_cons, IH. reflexivity.
Qed.

Lemma mem_congr (k k' : string) (h : Headers) :
  same_key k k' = true -> mem k h = mem k' h.
Proof.
  intros H. unfold mem. induction h as [|[k0 v0] h IH]; [reflexivity|].
  cbn [existsb fst]. now rewrite IH, (same_key_congr k k' k0 H).
Qed.

Lemma values_not_mem (key : string) (h : Headers) :
  mem key h = false -> values key h = [].
Proof.
  unfold mem. induction h as [|[k v] h IH]; [reflexivity|].
  cbn [existsb fst]. intros H. apply orb_false_iff in H as [Hk Hrest].
  rewrite values_cons, Hk. now apply IH.
Qed.

(** [h.update(other)] leaves alone the keys [other] does not hold. *)
Lemma values_update_other (key : string) (h other : Headers) :
  mem key other = false ->
  values key (update h other) = values key h.
Proof.
  intros Hmem. unfold update.
  rewrite values_app, (values_not_mem key other Hmem), app_nil_r.
  induction h as [|[k v] h IH]; [reflexivity|].
  cbn [filter fst]. rewrite values_cons.
  destruct (same_key key k) eqn:Hk.
  - rewrite <- (mem_congr key k other Hk), Hmem. cbn [negb].
    now rewrite values_cons, Hk, IH.
  - destruct (negb (mem k other)); [|exact IH].
    now rewrite values_cons, Hk.
Qed.

Lemma lookup_single (key value : string) (h : Headers) :
  values key h = [value] -> lookup key h = Some value.
Proof. unfold lookup. now intros ->. Qed.

End HdrFacts.

(* ===================================================================== *)
(** ** The client's state under its setters *)
(* ===================================================================== *)

(** The two calls that change a client after its construction. *)
Inductive update : Type :=
| SetBaseUrl (url : string)
| SetAuthToken (token : string).

Definition apply_update (u : update) (c : APIClient) : APIClient :=
  match u with
  | SetBaseUrl url => set_base_url url c
  | SetAuthToken token => set_auth_token token c
  end.

(** A sequence of such calls, made in order. *)
Definition apply_updates (us : list update) (c : APIClient) : APIClient :=
  fold_left (fun acc u => apply_update u acc) us c.

(** The token of the last [set_auth_token] in a sequence, if any. *)
Fixpoint last_token (us : list update) : option string :=
  match us with
  | [] => None
  | u :: rest =>
      match last_token rest with
      | Some t => Some t
      | None => match u with
                | SetAuthToken t => Some t
                | SetBaseUrl _ => None
                end
      end
  end.

Lemma set_auth_token_base_url (t : string) (c : APIClient) :
  base_url (set_auth_token t c) = base_url c.
Proof. reflexivity. Qed.

Lemma set_auth_token_other_headers (t key : string) (c : APIClient) :
  Hdr.same_key key "Authorization" = false ->
  Hdr.values key (client_headers (set_auth_token t c))
  = Hdr.values key (client_headers c).
Proof. intros H. now apply HdrFacts.values_set_other. Qed.

(** The [Authorization] values a client holds after a sequence of
    updates: the last token set, or what it held before. *)
Lemma authorization_after_updates (us : list update) (c : APIClient) :
  Hdr.values "Authorization" (client_headers (apply_updates us c))
  = match last_token us with
    | Some t => ["Bearer " ++ t]
    | None => Hdr.values "Authorization" (client_headers c)
    end.
Proof.
  revert c. induction us as [|u us IH]; intros c; [reflexivity|].
  cbn [apply_updates fold_left last_token].
  fold (apply_updates us (apply_update u c)). rewrite IH.
  destruct (last_token us) as [t|]; [reflexivity|].
  destruct u as [url | t]; [reflexivity|].
  apply HdrFacts.values_set_same.
Qed.

Lemma kw_headers_build (o : options) :
  kw_headers (build_kwargs o)
  = match req_headers o with
    | Some h => if PyDict.truthy h then Some h else None
    | None => None
    end.
Proof.
  unfold kw_headers. rewrite KwFacts.get_build_kwargs.
  rewrite (KwFacts.get_start_parameter "headers" o eq_refl).
  cbn [String.eqb Ascii.eqb Bool.eqb andb KwArgs.get].
  destruct (req_headers o) as [h|]; [destruct (PyDict.truthy h)|];
    reflexivity.
Qed.

(** Per-call headers that do not name [Authorization] leave the
    client's value on the request. *)
Lemma authorization_on_sent (c : APIClient) (method endpoint : string)
    (o : options) :
  (forall h, req_headers o = Some h -> Hdr.mem "Authorization" h = false) ->
  Hdr.values "Authorization" (sent_headers (the_sent c method endpoint o))
  = Hdr.values "Authorization" (client_headers c).
Proof.
  intros Hfree. cbn [sent_headers the_sent]. unfold merge_headers.
  rewrite kw_headers_build.
  destruct (req_headers o) as [h|] eqn:Hh; [|reflexivity].
  destruct (PyDict.truthy h); [|reflexivity].
  apply HdrFacts.values_update_other. now apply Hfree.
Qed.

(** C9 (as the code has it).  After [set_auth_token(t)], and until the
    token is set again, every request whose own [headers] do not name
    [Authorization] carries [Authorization: Bearer t] on each of its
    calls; [set_auth_token] changes neither the base URL nor the value
    of any other header. *)
Theorem auth_token_on_later_requests
    (transport : nat -> sent -> Z * outcome exc response)
    (json_loads : string -> option pyval)
    (c : APIClient) (us : list update) (t : string)
    (method endpoint : string) (o : options) (w : world) :
  last_token us = Some t ->
  (forall h, req_headers o = Some h -> Hdr.mem "Authorization" h = false) ->
  (exists out w' k,
      request transport json_loads (apply_updates us c) method endpoint o w
      = Some (out, w')
      /\ (1 <= k <= 3)%nat
      /\ calls w' = (calls w ++
                     repeat (the_sent (apply_updates us c) method endpoint o) k)%list
      /\ Hdr.lookup "Authorization"
           (sent_headers (the_sent (apply_updates us c) method endpoint o))
         = Some ("Bearer " ++ t))
  /\ base_url (set_auth_token t c) = base_url c
  /\ (forall key,
         Hdr.same_key key "Authorization" = false ->
         Hdr.values key (client_headers (set_auth_token t c))
         = Hdr.values key (client_headers c)).
Proof.
  intros Hlast Hfree. split; [|split].
  - destruct (request_calls transport json_loads (apply_updates us c)
                            method endpoint o w)
      as (out & w' & k & Hreq & Hk & Hcalls).
    exists out, w', k. repeat split; trivial; try lia.
    apply HdrFacts.lookup_single.
    rewrite authorization_on_sent by exact Hfree.
    now rewrite authorization_after_updates, Hlast.
  - apply set_auth_token_base_url.
  - intros key. apply set_auth_token_other_headers.
Qed.

Lemma auth_token_on_later_requests_witness :
  (exists out w' k,
      request (answering_transport sample_response) sample_json_loads
              (apply_updates [SetAuthToken "old"; SetAuthToken "abc";
                              SetBaseUrl "https://api.example.com/"]
                             staging_client)
              "GET" "posts/1"
              (with_headers [("X-Trace", "1")] default_options) empty_world
      = Some (out, w')
      /\ (1 <= k <= 3)%nat
      /\ calls w'
         = (calls empty_world ++
            repeat (the_sent
                      (apply_updates [SetAuthToken "old"; SetAuthToken "abc";
                                      SetBaseUrl "https://api.example.com/"]
                                     staging_client)
                      "GET" "posts/1"
                      (with_headers [("X-Trace", "1")] default_options)) k)%list
      /\ Hdr.lookup "Authorization"
           (sent_headers
              (the_sent
                 (apply_updates [SetAuthToken "old"; SetAuthToken "abc";
                                 SetBaseUrl "https://api.example.com/"]
                                staging_client)
                 "GET" "posts/1"
                 (with_headers [("X-Trace", "1")] default_options)))
         = Some ("Bearer " ++ "abc"))
  /\ base_url (set_auth_token "abc" staging_client) = base_url staging_client.
Proof.
  destruct (auth_token_on_later_requests
              (answering_transport sample_response) sample_json_loads
              staging_client
              [SetAuthToken "old"; SetAuthToken "abc";
               SetBaseUrl "https://api.example.com/"]
              "abc" "GET" "posts/1"
              (with_headers [("X-Trace", "1")] default_options) empty_world)
    as (Hsent & Hbase & _).
  - reflexivity.
  - intros h Hh. injection Hh as <-. vm_compute. reflexivity.
  - split; [exact Hsent | exact Hbase].
Defined.

(** C9 as claimed fails: a request that passes its own [Authorization]
    header carries that one, not the token set on the client. *)
Lemma auth_token_overridden_per_call :
  exists out w' s,
    request (answering_transport sample_response) sample_json_loads
            (set_auth_token "abc" staging_client) "GET" "posts/1"
            (with_headers [("Authorization", "Basic dXNlcjpwdw==")]
                          default_options)
            empty_world
    = Some (out, w')
    /\ calls w' = [s]
    /\ Hdr.lookup "Authorization" (sent_headers s)
       = Some "Basic dXNlcjpwdw=="
    /\ Hdr.lookup "Authorization" (sent_headers s) <> Some "Bearer abc".
Proof.
  vm_compute. eexists. eexists. eexists.
  split; [reflexivity|]. split; [reflexivity|].
  split; [reflexivity | discriminate].
Qed.

(* ===================================================================== *)
(** ** The base URL never ends with a slash *)
(* ===================================================================== *)

Lemma base_url_stripped_after_updates (us : list update) (c : APIClient) :
  PyStr.rstrip "/" (base_url c) = base_url c ->
  PyStr.rstrip "/" (base_url (apply_updates us c))
  = base_url (apply_updates us c).
Proof.
  revert c. induction us as [|u us IH]; intros c Hc; [exact Hc|].
  cbn [apply_updates fold_left]. fold (apply_updates us (apply_update u c)).
  apply IH. destruct u as [url | t]; cbn [apply_update].
  - apply PyStrFacts.rstrip_idempotent.
  - exact Hc.
Qed.

(** C10.  After construction and any sequence of [set_base_url] and
    [set_auth_token] calls, the stored base URL does not end with a
    slash: it is a string with nothing left to strip (the empty string
    included).  A relative endpoint joined to a non-empty base URL is
    therefore built as base, one slash, and an endpoint part that does
    not start with a slash. *)
Theorem base_url_never_ends_with_slash
    (b : string) (dh : option pydict) (us : list update) :
  PyStr.endswith "/" (base_url (apply_updates us (init b dh))) = false
  /\ PyStr.rstrip "/" (base_url (apply_updates us (init b dh)))
     = base_url (apply_updates us (init b dh))
  /\ (forall e,
         PyStr.startswith "http://" e = false ->
         PyStr.startswith "https://" e = false ->
         base_url (apply_updates us (init b dh)) <> "" ->
         exists rest,
           _build_url (apply_updates us (init b dh)) e
           = base_url (apply_updates us (init b dh)) ++ "/" ++ rest
           /\ PyStr.startswith "/" rest = false
           /\ rest = PyStr.lstrip "/" e).
Proof.
  assert (Hfix : PyStr.rstrip "/" (base_url (apply_updates us (init b dh)))
                 = base_url (apply_updates us (init b dh))).
  { apply base_url_stripped_after_updates.
    rewrite init_base_url. apply PyStrFacts.rstrip_idempotent. }
  split; [|split].
  - rewrite <- Hfix. apply PyStrFacts.rstrip_no_trailing_slash.
  - exact Hfix.
  - intros e H1 H2 Hbase. exists (PyStr.lstrip "/" e). split; [|split].
    + apply build_url_joined; [|exact Hbase].
      now rewrite PyStrFacts.startswith_any_scheme, H1, H2.
    + apply PyStrFacts.lstrip_no_leading_slash.
    + reflexivity.
Qed.

Lemma base_url_never_ends_with_slash_witness :
  base_url (apply_updates [SetAuthToken "abc";
                           SetBaseUrl "https://api.example.com///"]
                          (init "http://localhost:3000/" None))
  = "https://api.example.com"
  /\ exists rest,
       _build_url (apply_updates [SetAuthToken "abc";
                                  SetBaseUrl "https://api.example.com///"]
                                 (init "http://localhost:3000/" None))
                  "//posts/1"
       = base_url (apply_updates [SetAuthToken "abc";
                                  SetBaseUrl "https://api.example.com///"]
                                 (init "http://localhost:3000/" None))
         ++ "/" ++ rest
       /\ PyStr.startswith "/" rest = false
       /\ rest = PyStr.lstrip "/" "//posts/1".
Proof.
  split; [reflexivity|].
  refine (proj2 (proj2 (base_url_never_ends_with_slash
                          "http://localhost:3000/" None
                          [SetAuthToken "abc";
                           SetBaseUrl "https://api.example.com///"]))
                "//posts/1" _ _ _).
  - reflexivity.
  - reflexivity.
  - vm_compute. discriminate.
Defined.

(* ===================================================================== *)
(** ** Two runs, end to end *)
(* ===================================================================== *)

(** A [GET] of [posts/1] on the staging client, answered with status 200
    and a JSON body: one call to the joined URL, and a result with the
    decoded body. *)
Example get_posts_on_staging :
  exists res w',
    get (answering_transport sample_response) sample_json_loads
        staging_client "posts/1" default_options empty_world
    = Some (Returned res, w')
    /\ r_status res = 200
    /\ r_ok res = true
    /\ r_data res = PList [PInt 1; PInt 2]
    /\ map sent_url (calls w') = ["https://api.staging.example.com/posts/1"]
    /\ sleeps w' = [].
Proof.
  vm_compute. eexists. eexists. repeat split.
Qed.

(** After [set_auth_token("abc")] the call carries the bearer token next
    to the default headers. *)
Example get_with_token :
  exists res w',
    get (answering_transport sample_response) sample_json_loads
        (set_auth_token "abc" staging_client)
        "posts/1" default_options empty_world
    = Some (Returned res, w')
    /\ map sent_headers (calls w')
       = [[ ("Content-Type", "application/json");
            ("Accept", "application/json");
            ("User-Agent", "API-Test-Client/1.0");
            ("Authorization", "Bearer abc") ]].
Proof.
  vm_compute. eexists. eexists. repeat split.
Qed.

(* ===================================================================== *)
(** ** More on URL building *)
(* ===================================================================== *)

Module UrlFacts.
Import PyStr.

Lemma startswith_append (p a b : string) :
  startswith p a = true -> startswith p (a ++ b) = true.
Proof.
  revert a. induction p as [|x p IH]; intros a H; [reflexivity|].
  destruct a as [|y a]; [discriminate H|].
  cbn [startswith append] in *. apply andb_true_iff in H as [Hxy Hrest].
  now rewrite Hxy, (IH a Hrest).
Qed.

Lemma lstrip_run (k : nat) : lstrip "/" (run "/" k) = "".
Proof. induction k as [|k IH]; [reflexivity | exact IH]. Qed.

Lemma run_relative (k : nat) :
  startswith_any ["http://"; "https://"] (run "/" k) = false.
Proof. destruct k; reflexivity. Qed.

Lemma append_cancel_l (a x y : string) : a ++ x = a ++ y -> x = y.
Proof.
  induction a as [|c a IH]; [trivial|].
  cbn [append]. intros H. injection H as H. now apply IH.
Qed.

End UrlFacts.

(** X1.  A base URL made of slashes only (the empty string included)
    counts as no base URL: a client constructed with it, or set to it,
    builds every endpoint as it is given. *)
Theorem slash_only_base_url_is_no_base_url
    (k : nat) (c : APIClient) (dh : option pydict) (e : string) :
  _build_url (set_base_url (PyStr.run "/" k) c) e = e
  /\ _build_url (init (PyStr.run "/" k) dh) e = e.
Proof.
  assert (H : forall c', base_url c' = "" -> _build_url c' e = e).
  { intros c' Hc. unfold _build_url. rewrite Hc.
    now destruct (PyStr.startswith_any _ e). }
  split; apply H.
  - cbn [set_base_url base_url]. apply PyStrFacts.rstrip_run_slash.
  - rewrite init_base_url. apply PyStrFacts.rstrip_run_slash.
Qed.

(** X2.  When the base URL itself starts with [http://] or [https://],
    every built URL does too, and building is idempotent: a URL that
    [_build_url] returned is returned unchanged when passed again. *)
Theorem build_url_idempotent_on_absolute_base (c : APIClient) (e : string) :
  PyStr.startswith "http://" (base_url c) = true
  \/ PyStr.startswith "https://" (base_url c) = true ->
  PyStr.startswith_any ["http://"; "https://"] (_build_url c e) = true
  /\ _build_url c (_build_url c e) = _build_url c e.
Proof.
  intros Hbase.
  assert (Habs : PyStr.startswith_any ["http://"; "https://"] (_build_url c e)
                 = true).
  { unfold _build_url.
    destruct (PyStr.startswith_any _ e) eqn:He; [exact He|].
    assert (Hne : PyStr.truthy (base_url c) = true).
    { destruct (base_url c); [destruct Hbase; discriminate | reflexivity]. }
    rewrite Hne, PyStrFacts.startswith_any_scheme.
    destruct Hbase as [H | H];
      rewrite (UrlFacts.startswith_append _ _ _ H);
      [reflexivity | apply orb_true_r]. }
  split; [exact Habs | now apply build_url_absolute].
Qed.

Lemma build_url_idempotent_on_absolute_base_witness :
  PyStr.startswith_any ["http://"; "https://"]
                       (_build_url staging_client "/posts/1") = true
  /\ _build_url staging_client (_build_url staging_client "/posts/1")
     = _build_url staging_client "/posts/1".
Proof.
  apply (build_url_idempotent_on_absolute_base staging_client "/posts/1").
  right. reflexivity.
Defined.

(** Without a scheme on the base URL the second pass joins again. *)
Example build_url_twice_on_bare_host :
  _build_url (init "api.example.com" None)
             (_build_url (init "api.example.com" None) "posts")
  = "api.example.com/api.example.com/posts".
Proof. reflexivity. Qed.

(** X3.  An endpoint that is empty or made of slashes only, on a client
    with a base URL, builds the base URL followed by a single slash. *)
Theorem build_url_of_empty_endpoint (c : APIClient) (k : nat) :
  base_url c <> "" ->
  _build_url c (PyStr.run "/" k) = base_url c ++ "/".
Proof.
  intros Hbase.
  rewrite build_url_joined; [| apply UrlFacts.run_relative | exact Hbase].
  now rewrite UrlFacts.lstrip_run.
Qed.

Lemma build_url_of_empty_endpoint_witness :
  _build_url staging_client (PyStr.run "/" 0)
  = base_url staging_client ++ "/"
  /\ _build_url staging_client (PyStr.run "/" 2)
     = base_url staging_client ++ "/".
Proof.
  split.
  - apply (build_url_of_empty_endpoint staging_client 0). discriminate.
  - apply (build_url_of_empty_endpoint staging_client 2). discriminate.
Defined.

(** X4.  On a client with a base URL, two relative endpoints build the
    same URL exactly when they agree once their leading slashes are
    dropped. *)
Theorem build_url_same_iff_same_stripped (c : APIClient) (e1 e2 : string) :
  base_url c <> "" ->
  PyStr.startswith_any ["http://"; "https://"] e1 = false ->
  PyStr.startswith_any ["http://"; "https://"] e2 = false ->
  (_build_url c e1 = _build_url c e2
   <-> PyStr.lstrip "/" e1 = PyStr.lstrip "/" e2).
Proof.
  intros Hbase H1 H2.
  rewrite (build_url_joined c e1 H1 Hbase), (build_url_joined c e2 H2 Hbase).
  split.
  - intros H. apply UrlFacts.append_cancel_l in H.
    now apply (UrlFacts.append_cancel_l "/") in H.
  - now intros ->.
Qed.

Lemma build_url_same_iff_same_stripped_witness :
  (_build_url staging_client "//posts/1" = _build_url staging_client "posts/1"
   <-> PyStr.lstrip "/" "//posts/1" = PyStr.lstrip "/" "posts/1")
  /\ (_build_url staging_client "posts/1" = _build_url staging_client "posts/1/"
      <-> PyStr.lstrip "/" "posts/1" = PyStr.lstrip "/" "posts/1/").
Proof.
  split.
  - apply (build_url_same_iff_same_stripped staging_client);
      [discriminate | reflexivity | reflexivity].
  - apply (build_url_same_iff_same_stripped staging_client);
      [discriminate | reflexivity | reflexivity].
Defined.

(* ===================================================================== *)
(** ** More on headers *)
(* ===================================================================== *)

Module DictFacts.

(** [d.get(k)]: the value stored under exactly the key [k]. *)
Fixpoint get (k : string) (d : pydict) : option string :=
  match d with
  | [] => None
  | (k', v) :: d' => if String.eqb k k' then Some v else get k d'
  end.

Lemma get_set (k k' v : string) (d : pydict) :
  get k (PyDict.set k' v d) = if String.eqb k k' then Some v else get k d.
Proof.
  induction d as [|[k0 v0] d IH].
  - cbn [PyDict.set get]. reflexivity.
  - cbn [PyDict.set]. destruct (String.eqb k' k0) eqn:H0.
    + apply String.eqb_eq in H0. subst k0. cbn [get].
      destruct (String.eqb k k'); reflexivity.
    + cbn [get]. rewrite IH. destruct (String.eqb k k0) eqn:Hk; [|reflexivity].
      apply String.eqb_eq in Hk. subst k0.
      rewrite String.eqb_sym in H0. now rewrite H0.
Qed.

Lemma get_not_in (k : string) (d : pydict) :
  ~ In k (map fst d) -> get k d = None.
Proof.
  induction d as [|[k0 v0] d IH]; [reflexivity|].
  cbn [map fst In get]. intros H.
  destruct (String.eqb k k0) eqn:Hk.
  - apply String.eqb_eq in Hk. subst. exfalso. apply H. now left.
  - apply IH. intros Hin. apply H. now right.
Qed.

(** [d.update(other)], read back key by key. *)
Lemma get_update (k : string) (other d : pydict) :
  NoDup (map fst other) ->
  get k (PyDict.update d other)
  = match get k other with
    | Some v => Some v
    | None => get k d
    end.
Proof.
  unfold PyDict.update. revert d.
  induction other as [|[k0 v0] other IH]; intros d Hnd; [reflexivity|].
  cbn [fold_left fst snd map] in *. inversion Hnd as [|? ? Hnotin Hnd']; subst.
  rewrite (IH _ Hnd'). cbn [get].
  destruct (String.eqb k k0) eqn:Hk.
  - apply String.eqb_eq in Hk. subst k0.
    rewrite (get_not_in k other Hnotin), get_set, String.eqb_refl. reflexivity.
  - destruct (get k other); [reflexivity|]. now rewrite get_set, Hk.
Qed.

End DictFacts.

(** The headers every client starts from. *)
Definition builtin_headers : pydict :=
  [ ("Content-Type", "application/json");
    ("Accept", "application/json");
    ("User-Agent", "API-Test-Client/1.0") ].

(** X5.  The headers of a new client are the three built-in ones with
    the caller's [default_headers] laid over them: a key the caller
    gives takes the caller's value (also in place of a built-in one
    written the same way), and every other built-in header stays. *)
Theorem init_headers_defaults_overridden
    (b : string) (d : pydict) (k : string) :
  NoDup (map fst d) ->
  DictFacts.get k (client_headers (init b (Some d)))
  = match DictFacts.get k d with
    | Some v => Some v
    | None => DictFacts.get k builtin_headers
    end.
Proof.
  intros Hnd. unfold init. cbn [client_headers]. unfold Hdr.of_dict.
  destruct d as [|kv d]; [reflexivity|].
  cbn [PyDict.truthy]. now apply DictFacts.get_update.
Qed.

Lemma init_headers_defaults_overridden_witness :
  DictFacts.get "User-Agent"
    (client_headers (init "" (Some [("User-Agent", "API-Tests/1.0");
                                    ("X-Trace", "1")])))
  = Some "API-Tests/1.0"
  /\ DictFacts.get "Accept"
       (client_headers (init "" (Some [("User-Agent", "API-Tests/1.0");
                                       ("X-Trace", "1")])))
     = Some "application/json".
Proof.
  split.
  - apply (init_headers_defaults_overridden
             "" [("User-Agent", "API-Tests/1.0"); ("X-Trace", "1")]
             "User-Agent").
    repeat constructor; simpl; intuition discriminate.
  - apply (init_headers_defaults_overridden
             "" [("User-Agent", "API-Tests/1.0"); ("X-Trace", "1")]
             "Accept").
    repeat constructor; simpl; intuition discriminate.
Defined.

Module HdrMore.
Import Hdr.

Lemma remove_idempotent (key : string) (h : Headers) :
  remove key (remove key h) = remove key h.
Proof.
  unfold remove. induction h as [|[k v] h IH]; [reflexivity|].
  cbn [filter fst]. destruct (negb (same_key key k)) eqn:Hk; [|exact IH].
  cbn [filter fst]. now rewrite Hk, IH.
Qed.

(** Assigning a header twice leaves what the second assignment alone
    would leave. *)
Lemma set_set (key v1 v2 : string) (h : Headers) :
  set key v2 (set key v1 h) = set key v2 h.
Proof.
  induction h as [|[k v] h IH].
  - cbn [set]. now rewrite HdrFacts.same_key_refl.
  - cbn [set]. destruct (same_key key k) eqn:Hk.
    + cbn [set]. now rewrite HdrFacts.same_key_refl, remove_idempotent.
    + cbn [set]. now rewrite Hk, IH.
Qed.

(** Keys that differ in case only read the same values. *)
Lemma values_congr (k k' : string) (h : Headers) :
  same_key k k' = true -> values k h = values k' h.
Proof.
  intros H. unfold values. f_equal. apply filter_ext. intros [k0 v0].
  cbn [fst]. now apply HdrFacts.same_key_congr.
Qed.

(** [h.update(other)] puts the values of [other] under the keys it holds. *)
Lemma values_update_mem (key : string) (h other : Headers) :
  mem key other = true ->
  values key (update h other) = values key other.
Proof.
  intros Hmem. unfold update. rewrite HdrFacts.values_app.
  replace (values key (filter (fun kv => negb (mem (fst kv) other)) h))
    with (@nil string); [reflexivity|].
  induction h as [|[k v] h IH]; [reflexivity|].
  cbn [filter fst]. destruct (mem k other) eqn:Hk; cbn [negb]; [exact IH|].
  rewrite HdrFacts.values_cons.
  destruct (same_key key k) eqn:Hs; [|exact IH].
  rewrite (HdrFacts.mem_congr key k other Hs) in Hmem. congruence.
Qed.

End HdrMore.

(** X6.  Setting the token again replaces it: after two calls of
    [set_auth_token] the client is in the state the second call alone
    would have left, with one [Authorization] header. *)
Theorem set_auth_token_twice (t1 t2 : string) (c : APIClient) :
  set_auth_token t2 (set_auth_token t1 c) = set_auth_token t2 c
  /\ Hdr.values "authorization" (client_headers (set_auth_token t2 c))
     = ["Bearer " ++ t2].
Proof.
  split.
  - unfold set_auth_token. cbn [base_url client_headers].
    now rewrite HdrMore.set_set.
  - cbn [set_auth_token client_headers].
    rewrite (HdrMore.values_congr "authorization" "Authorization")
      by reflexivity.
    apply HdrFacts.values_set_same.
Qed.

(** X7.  The headers a call carries are the client's with the per-call
    [headers] merged over them, keys compared without regard to case:
    under a name the per-call headers hold, only their values are sent;
    under any other name, the client's.  An empty [headers] dictionary
    is the same as none. *)
Theorem per_call_headers_win
    (c : APIClient) (method endpoint : string) (o : options) (key : string) :
  (forall h, req_headers o = Some h -> h <> [] ->
     Hdr.values key (sent_headers (the_sent c method endpoint o))
     = if Hdr.mem key h then Hdr.values key h
       else Hdr.values key (client_headers c))
  /\
  (req_headers o = Some [] \/ req_headers o = None ->
   sent_headers (the_sent c method endpoint o) = client_headers c).
Proof.
  cbn [sent_headers the_sent]. unfold merge_headers.
  rewrite kw_headers_build. split.
  - intros h Hh Hne. rewrite Hh.
    destruct h as [|kv h]; [congruence|]. cbn [PyDict.truthy].
    unfold Hdr.of_dict. destruct (Hdr.mem key (kv :: h)) eqn:Hmem.
    + now apply HdrMore.values_update_mem.
    + now apply HdrFacts.values_update_other.
  - intros [-> | ->]; reflexivity.
Qed.

Lemma per_call_headers_win_witness :
  Hdr.values "accept"
    (sent_headers (the_sent staging_client "GET" "posts"
                     (with_headers [("ACCEPT", "text/html")] default_options)))
  = (if Hdr.mem "accept" [("ACCEPT", "text/html")]
     then Hdr.values "accept" [("ACCEPT", "text/html")]
     else Hdr.values "accept" (client_headers staging_client))
  /\ sent_headers (the_sent staging_client "GET" "posts"
                     (with_headers [] default_options))
     = client_headers staging_client.
Proof.
  split.
  - apply (proj1 (per_call_headers_win staging_client "GET" "posts"
                    (with_headers [("ACCEPT", "text/html")] default_options)
                    "accept") [("ACCEPT", "text/html")]);
      [reflexivity | discriminate].
  - apply (proj2 (per_call_headers_win staging_client "GET" "posts"
                    (with_headers [] default_options) "accept")).
    left. reflexivity.
Defined.

(* ===================================================================== *)
(** ** More on the runs of [request] *)
(* ===================================================================== *)

(** X8.  Every sleep of [request] lasts exactly 2 seconds: a run that
    makes [k] calls (one to three) sleeps [k - 1] times, before each
    call but the first and never after the last, so never more than 4
    seconds in all. *)
Theorem request_sleeps_two_seconds_between_calls
    (transport : nat -> sent -> Z * outcome exc response)
    (json_loads : string -> option pyval)
    (c : APIClient) (method endpoint : string) (o : options) (w : world) :
  exists out w' k,
    request transport json_loads c method endpoint o w = Some (out, w')
    /\ (1 <= k <= 3)%nat
    /\ calls w' = (calls w ++ repeat (the_sent c method endpoint o) k)%list
    /\ sleeps w' = (sleeps w ++ repeat 2 (k - 1))%list.
Proof.
  destruct (request_fuel_enough transport json_loads c method endpoint o w)
    as (out & w' & Hreq & _).
  pose proof Hreq as Hrun. apply request_attempts, attempts_summary in Hrun.
  destruct Hrun as (k & lat & Hk & Hbound & Hcalls & Hsleeps & _).
  exists out, w', k. repeat split; trivial; try lia.
  rewrite Hsleeps. f_equal.
  destruct k as [|[|[|[|k]]]]; try reflexivity; exfalso; lia.
Qed.

(** X9.  What the exception that reaches the caller tells about the run.
    A [RetryError] is raised only after exactly three calls and two
    sleeps, and carries the [RequestError] raised by the third call; an
    exception that arrives unwrapped is never a [RequestError], and was
    raised by the last call made. *)
Theorem raised_outcome_tells_the_run
    (transport : nat -> sent -> Z * outcome exc response)
    (json_loads : string -> option pyval)
    (c : APIClient) (method endpoint : string) (o : options)
    (w w' : world) (x : raised) :
  request transport json_loads c method endpoint o w = Some (Raised x, w') ->
  match x with
  | RetryError e =>
      calls w' = (calls w ++ repeat (the_sent c method endpoint o) 3)%list
      /\ sleeps w' = (sleeps w ++ [2; 2])%list
      /\ isinstance e RequestError = true
      /\ exists lat,
           transport (List.length (calls w) + 2)%nat (the_sent c method endpoint o)
           = (lat, Raised e)
  | Propagated e =>
      isinstance e RequestError = false
      /\ exists lat,
           transport (List.length (calls w') - 1)%nat (the_sent c method endpoint o)
           = (lat, Raised e)
  end.
Proof.
  intros Hreq. apply request_attempts, attempts_summary in Hreq.
  destruct Hreq as (k & lat & Hk & Hbound & Hcalls & Hsleeps & Hout).
  destruct x as [e | e].
  - destruct Hout as (Ht & Hr). rewrite retry_iff_request_error in Hr.
    split; [exact Hr|]. exists lat.
    rewrite Hcalls, length_app, repeat_length.
    replace (List.length (calls w) + k - 1)%nat
      with (List.length (calls w) + (k - 1))%nat by lia.
    exact Ht.
  - destruct Hout as (Ht & Hr & Hn). rewrite retry_iff_request_error in Hr.
    assert (k = 3%nat) by lia. subst k.
    repeat split; trivial. now exists lat.
Qed.

Lemma raised_outcome_tells_the_run_witness :
  calls (after_failure staging_client "GET" "posts/1" default_options 1
           connect_error
           (slept 2 (after_failure staging_client "GET" "posts/1"
                       default_options 1 connect_error
              (slept 2 (after_failure staging_client "GET" "posts/1"
                          default_options 1 connect_error empty_world)))))
  = (calls empty_world
       ++ repeat (the_sent staging_client "GET" "posts/1" default_options) 3)%list
  /\ isinstance connect_error RequestError = true.
Proof.
  pose proof (raised_outcome_tells_the_run
                (failing_transport connect_error) sample_json_loads
                staging_client "GET" "posts/1" default_options empty_world
                _ (RetryError connect_error)
                (run_fail_fail_fail _ _ _ _ _ _ _
                   connect_error connect_error connect_error 1 1 1
                   eq_refl eq_refl eq_refl eq_refl eq_refl eq_refl))
    as (Hcalls & _ & Hreq & _).
  split; [exact Hcalls | exact Hreq].
Defined.

Section SecondAttempt.

Variable transport : nat -> sent -> Z * outcome exc response.
Variable json_loads : string -> option pyval.
Variable c : APIClient.
Variables method endpoint : string.
Variable o : options.
Variable w : world.

Local Abbreviation s := (the_sent c method endpoint o).

(** X10.  After a first attempt that failed with a [RequestError], the
    second attempt decides like a first one: an answer is returned, and
    an exception that is not a [RequestError] goes to the caller
    unwrapped; in both cases after two calls and one sleep of 2
    seconds. *)
Theorem second_attempt_decides (e1 : exc) (l1 : Z) :
  transport (List.length (calls w)) s = (l1, Raised e1) ->
  isinstance e1 RequestError = true ->
  (forall l2 r,
      transport (S (List.length (calls w))) s = (l2, Returned r) ->
      exists w',
        request transport json_loads c method endpoint o w
        = Some (Returned (result_of json_loads r l2), w')
        /\ calls w' = (calls w ++ [s; s])%list
        /\ sleeps w' = (sleeps w ++ [2])%list)
  /\
  (forall l2 e2,
      transport (S (List.length (calls w))) s = (l2, Raised e2) ->
      isinstance e2 RequestError = false ->
      exists w',
        request transport json_loads c method endpoint o w
        = Some (Raised (Propagated e2), w')
        /\ calls w' = (calls w ++ [s; s])%list
        /\ sleeps w' = (sleeps w ++ [2])%list).
Proof.
  intros H1 R1. rewrite <- retry_iff_request_error in R1. split.
  - intros l2 r H2. eexists. split; [|split].
    + apply request_attempts.
      eapply attempt_again; [exact H1 | exact R1 | lia |].
      eapply attempt_answered.
      cbn [calls slept after_failure]. rewrite last_length. exact H2.
    + cbn [calls slept after_failure after_success].
      now rewrite <- app_assoc.
    + reflexivity.
  - intros l2 e2 H2 R2. rewrite <- retry_iff_request_error in R2.
    eexists. split; [|split].
    + apply request_attempts.
      eapply attempt_again; [exact H1 | exact R1 | lia |].
      eapply attempt_rejected; [|exact R2].
      cbn [calls slept after_failure]. rewrite last_length. exact H2.
    + cbn [calls slept after_failure]. now rewrite <- app_assoc.
    + reflexivity.
Qed.

End SecondAttempt.

(** Refuses the first connection, then fails on the URL. *)
Definition refusing_then_invalid (n : nat) (_ : sent)
    : Z * outcome exc response :=
  match n with
  | 0%nat => (1, Raised connect_error)
  | _ => (1, Raised invalid_url)
  end.

Lemma second_attempt_decides_witness :
  exists w',
    request refusing_then_invalid sample_json_loads staging_client
            "GET" "posts/1" default_options empty_world
    = Some (Raised (Propagated invalid_url), w')
    /\ calls w' = (calls empty_world ++
                   [the_sent staging_client "GET" "posts/1" default_options;
                    the_sent staging_client "GET" "posts/1" default_options])%list
    /\ sleeps w' = (sleeps empty_world ++ [2])%list.
Proof.
  refine (proj2 (second_attempt_decides
                   refusing_then_invalid sample_json_loads staging_client
                   "GET" "posts/1" default_options empty_world
                   connect_error 1 _ _)
                1 invalid_url _ _);
    vm_compute; reflexivity.
Defined.

(* ===================================================================== *)
(** ** The log of a run *)
(* ===================================================================== *)

(** The two records of an attempt that failed with [x]. *)
Definition failed_attempt_log (c : APIClient) (method endpoint : string)
    (o : options) (x : exc) : list log_entry :=
  [making_request c method endpoint o; request_failed c method endpoint x].

(** The record that closes the log of a run, by its outcome. *)
Definition closing_record (c : APIClient) (method endpoint : string)
    (out : outcome raised result) : log_entry :=
  match out with
  | Returned res =>
      received_response c method endpoint (r_response res) (r_elapsed res)
  | Raised (Propagated x) | Raised (RetryError x) =>
      request_failed c method endpoint x
  end.

Lemma attempts_log
    (transport : nat -> sent -> Z * outcome exc response)
    (json_loads : string -> option pyval)
    (c : APIClient) (method endpoint : string) (o : options)
    (n : nat) (w w' : world) (out : outcome raised result) :
  attempts transport json_loads c method endpoint o n w out w' ->
  exists failures,
    logs w' = (logs w
               ++ flat_map (failed_attempt_log c method endpoint o) failures
               ++ [making_request c method endpoint o;
                   closing_record c method endpoint out])%list
    /\ calls w' = (calls w ++ repeat (the_sent c method endpoint o)
                                      (S (List.length failures)))%list
    /\ Forall (fun x => isinstance x RequestError = true) failures.
Proof.
  induction 1 as [n w lat r Ht | n w lat e Ht Hr | n w lat e Ht Hr Hn
                 | n w lat e out w' Ht Hr Hn _ IH].
  - exists []. cbn [flat_map app logs calls after_success repeat List.length
                    closing_record r_response r_elapsed result_of].
    rewrite <- app_assoc. repeat split. constructor.
  - exists []. cbn [flat_map app logs calls after_failure repeat List.length
                    closing_record].
    rewrite <- app_assoc. repeat split. constructor.
  - exists []. cbn [flat_map app logs calls after_failure repeat List.length
                    closing_record].
    rewrite <- app_assoc. repeat split. constructor.
  - destruct IH as (failures & Hlogs & Hcalls & Hall).
    cbn [logs calls slept after_failure] in Hlogs, Hcalls.
    exists (e :: failures). split; [|split].
    + rewrite Hlogs. cbn [flat_map failed_attempt_log app].
      rewrite <- !app_assoc. reflexivity.
    + rewrite Hcalls. cbn [List.length repeat]. now rewrite <- app_assoc.
    + constructor; [| exact Hall]. now rewrite <- retry_iff_request_error.
Qed.

(** X11.  The log of a run.  Each attempt writes "Making request"
    before its call and one record after it: "Request failed", with the
    text of the exception, for every attempt that raised, retried or
    not, and "Received response" for the answer.  So the run adds two
    records per call, every exception met on the way is in the log, and
    the last record tells the outcome. *)
Theorem request_log_trail
    (transport : nat -> sent -> Z * outcome exc response)
    (json_loads : string -> option pyval)
    (c : APIClient) (method endpoint : string) (o : options) (w : world) :
  exists out w' failures,
    request transport json_loads c method endpoint o w = Some (out, w')
    /\ logs w' = (logs w
                  ++ flat_map (failed_attempt_log c method endpoint o) failures
                  ++ [making_request c method endpoint o;
                      closing_record c method endpoint out])%list
    /\ calls w' = (calls w ++ repeat (the_sent c method endpoint o)
                                      (S (List.length failures)))%list
    /\ List.length (logs w')
       = (List.length (logs w) + 2 * S (List.length failures))%nat
    /\ Forall (fun x => isinstance x RequestError = true) failures.
Proof.
  destruct (request_fuel_enough transport json_loads c method endpoint o w)
    as (out & w' & Hreq & _).
  pose proof Hreq as Hrun. apply request_attempts, attempts_log in Hrun.
  destruct Hrun as (failures & Hlogs & Hcalls & Hall).
  exists out, w', failures. repeat split; trivial.
  rewrite Hlogs, !length_app.
  assert (Hflat : List.length
                    (flat_map (failed_attempt_log c method endpoint o) failures)
                  = (2 * List.length failures)%nat).
  { clear. induction failures as [|x l IH]; [reflexivity|].
    cbn [flat_map failed_attempt_log app List.length]. rewrite IH. lia. }
  rewrite Hflat. cbn [List.length]. lia.
Qed.

(* ===================================================================== *)
(** ** The method is sent in upper case *)
(* ===================================================================== *)

Module UpperFacts.
Import PyStr.

Lemma upper_ascii_idempotent (a : ascii) :
  upper_ascii (upper_ascii a) = upper_ascii a.
Proof. destruct a as [[] [] [] [] [] [] [] []]; reflexivity. Qed.

Lemma upper_idempotent (s : string) : upper (upper s) = upper s.
Proof.
  unfold upper. induction s as [|a s IH]; [reflexivity|].
  cbn [map_string]. now rewrite upper_ascii_idempotent, IH.
Qed.

End UpperFacts.

Lemma the_sent_upper (c : APIClient) (method endpoint : string) (o : options) :
  the_sent c (PyStr.upper method) endpoint o = the_sent c method endpoint o.
Proof. unfold the_sent. now rewrite UpperFacts.upper_idempotent. Qed.

(** Two worlds the transport cannot tell apart. *)
Definition same_traffic (w v : world) : Prop :=
  calls w = calls v /\ sleeps w = sleeps v /\ clock w = clock v.

Lemma attempts_upper
    (transport : nat -> sent -> Z * outcome exc response)
    (json_loads : string -> option pyval)
    (c : APIClient) (method endpoint : string) (o : options)
    (n : nat) (w w' : world) (out : outcome raised result) :
  attempts transport json_loads c method endpoint o n w out w' ->
  forall v, same_traffic w v ->
  exists v',
    attempts transport json_loads c (PyStr.upper method) endpoint o n v out v'
    /\ same_traffic w' v'.
Proof.
  induction 1 as [n w lat r Ht | n w lat e Ht Hr | n w lat e Ht Hr Hn
                 | n w lat e out w' Ht Hr Hn _ IH];
    intros v (Hc & Hs & Hk);
    rewrite Hc, <- (the_sent_upper c method endpoint o) in Ht.
  - eexists. split; [eapply attempt_answered; exact Ht|].
    unfold same_traffic. cbn [calls sleeps clock after_success].
    now rewrite the_sent_upper, Hc, Hs, Hk.
  - eexists. split; [eapply attempt_rejected; [exact Ht | exact Hr]|].
    unfold same_traffic. cbn [calls sleeps clock after_failure].
    now rewrite the_sent_upper, Hc, Hs, Hk.
  - eexists. split; [eapply attempt_last; [exact Ht | exact Hr | exact Hn]|].
    unfold same_traffic. cbn [calls sleeps clock after_failure].
    now rewrite the_sent_upper, Hc, Hs, Hk.
  - destruct (IH (slept (Tenacity.wait request_retry n)
                        (after_failure c (PyStr.upper method) endpoint o
                                       lat e v)))
      as (v' & Hrun & Hsame).
    { unfold same_traffic. cbn [calls sleeps clock slept after_failure].
      now rewrite the_sent_upper, Hc, Hs, Hk. }
    exists v'. split; [|exact Hsame].
    eapply attempt_again; [exact Ht | exact Hr | exact Hn | exact Hrun].
Qed.

(** X12.  The method is sent in upper case, so its case does not matter:
    [request] with a method and with the same method in upper case hand
    the same calls to the transport, sleep alike and end with the same
    outcome (the logs alone differ, they show the method as given). *)
Theorem request_method_case_insensitive
    (transport : nat -> sent -> Z * outcome exc response)
    (json_loads : string -> option pyval)
    (c : APIClient) (method endpoint : string) (o : options) (w : world) :
  exists out w' v',
    request transport json_loads c method endpoint o w = Some (out, w')
    /\ request transport json_loads c (PyStr.upper method) endpoint o w
       = Some (out, v')
    /\ calls w' = calls v'
    /\ sleeps w' = sleeps v'
    /\ clock w' = clock v'
    /\ forall s, In s (calls w') -> In s (calls w) \/
                                   sent_method s = PyStr.upper method.
Proof.
  destruct (request_fuel_enough transport json_loads c method endpoint o w)
    as (out & w' & Hreq & _).
  pose proof Hreq as Hrun. apply request_attempts in Hrun.
  destruct (attempts_upper _ _ _ _ _ _ _ _ _ _ Hrun w) as (v' & Hrun' & Hsame).
  { repeat split. }
  apply request_attempts in Hrun'. destruct Hsame as (Hc & Hs & Hk).
  exists out, w', v'. repeat split; trivial.
  intros s Hin. apply attempts_summary in Hrun.
  destruct Hrun as (k & lat & _ & _ & Hcalls & _).
  rewrite Hcalls in Hin. apply in_app_or in Hin as [Hold | Hnew];
    [now left | right].
  apply repeat_spec in Hnew. now subst s.
Qed.

(* ===================================================================== *)
(** ** The elapsed time *)
(* ===================================================================== *)

(** X13.  The [elapsed] field of a result is the time the answering
    call took, and the [response] field is its answer: the clock is
    read at the start of each attempt, so earlier attempts and the
    sleeps between them are not counted. *)
Theorem elapsed_is_the_last_call
    (transport : nat -> sent -> Z * outcome exc response)
    (json_loads : string -> option pyval)
    (c : APIClient) (method endpoint : string) (o : options)
    (w w' : world) (res : result) :
  request transport json_loads c method endpoint o w
  = Some (Returned res, w') ->
  transport (List.length (calls w') - 1)%nat (the_sent c method endpoint o)
  = (r_elapsed res, Returned (r_response res))
  /\ (List.length (calls w) < List.length (calls w'))%nat.
Proof.
  intros Hreq. apply request_attempts, attempts_summary in Hreq.
  destruct Hreq as (k & lat & Hk & _ & Hcalls & _ & r & Ht & ->).
  rewrite Hcalls, length_app, repeat_length. cbn [r_elapsed r_response result_of].
  split; [|lia].
  replace (List.length (calls w) + k - 1)%nat
    with (List.length (calls w) + (k - 1))%nat by lia.
  exact Ht.
Qed.

(** The world the flaky transport leaves behind, started from nothing. *)
Definition flaky_final_world : world :=
  after_success staging_client "GET" "posts/1" default_options 1
    sample_response
    (slept 2 (after_failure staging_client "GET" "posts/1" default_options 1
                connect_error
       (slept 2 (after_failure staging_client "GET" "posts/1" default_options
                   1 connect_error empty_world)))).

Lemma elapsed_is_the_last_call_witness :
  flaky_transport (List.length (calls flaky_final_world) - 1)%nat
                  (the_sent staging_client "GET" "posts/1" default_options)
  = (r_elapsed (result_of sample_json_loads sample_response 1),
     Returned (r_response (result_of sample_json_loads sample_response 1)))
  /\ clock flaky_final_world = 7.
Proof.
  split; [|reflexivity].
  refine (proj1 (elapsed_is_the_last_call
                   flaky_transport sample_json_loads staging_client
                   "GET" "posts/1" default_options empty_world
                   flaky_final_world
                   (result_of sample_json_loads sample_response 1) _)).
  vm_compute. reflexivity.
Defined.

(* ===================================================================== *)
(** ** The settings ([src/config/settings.py]) *)
(* ===================================================================== *)

Module Settings.

(** The process environment, as [os.getenv] reads it once [load_dotenv]
    has run. *)
Definition environ : Type := string -> option string.

(** [os.getenv(key, default)]. *)
Definition getenv (env : environ) (key default : string) : string :=
  match env key with
  | Some v => v
  | None => default
  end.

(** The [settings] dictionary. *)
Record settings : Type := mk_settings {
  environment : string;
  api_base_url : string;
  api_version : string;
  api_timeout : Z;
  api_max_retries : Z;
  auth_token : option string
}.

(** Building [settings] when the module is imported.  [py_int] is
    Python's [int] on text, [None] where it raises [ValueError]: the
    import then fails. *)
Definition load (py_int : string -> option Z) (env : environ)
    : option settings :=
  match py_int (getenv env "API_TIMEOUT" "30000") with
  | None => None
  | Some t =>
      match py_int (getenv env "API_MAX_RETRIES" "3") with
      | None => None
      | Some r =>
          Some (mk_settings
                  (getenv env "ENVIRONMENT" "staging")
                  (getenv env "API_BASE_URL" "https://api.staging.example.com")
                  (getenv env "API_VERSION" "v1")
                  t r
                  (env "AUTH_TOKEN"))
      end
  end.

(** [env_urls.get(env, default)] on a dictionary of URLs. *)
Definition dict_get_or (k : string) (d : pydict) (default : string) : string :=
  match DictFacts.get k d with
  | Some v => v
  | None => default
  end.

(** [get_base_url]. *)
Definition get_base_url (st : settings) : string :=
  let env := PyStr.lower (environment st) in
  let env_urls := [ ("development", "http://localhost:3000");
                    ("staging", "https://api.staging.example.com");
                    ("production", "https://api.example.com") ] in
  dict_get_or env env_urls (api_base_url st).

(** [get_headers]. *)
Definition get_headers (st : settings) : pydict :=
  let headers := [ ("Content-Type", "application/json");
                   ("Accept", "application/json");
                   ("User-Agent", "API-Tests/1.0") ] in
  match auth_token st with
  | Some token =>
      if PyStr.truthy token
      then PyDict.set "Authorization" ("Bearer " ++ token) headers
      else headers
  | None => headers
  end.

End Settings.

(** A reader of unsigned decimal numbers, for the examples. *)
Fixpoint digits_value (acc : Z) (s : string) : option Z :=
  match s with
  | EmptyString => Some acc
  | String a rest =>
      let n := nat_of_ascii a in
      if (Nat.leb 48 n && Nat.leb n 57)%bool
      then digits_value (10 * acc + Z.of_nat (n - 48)) rest
      else None
  end.

Definition sample_int (s : string) : option Z :=
  match s with
  | EmptyString => None
  | _ => digits_value 0 s
  end.

(** An environment that names production, in capitals, and nothing else. *)
Definition production_environ : Settings.environ :=
  fun key => if String.eqb key "ENVIRONMENT" then Some "PRODUCTION" else None.

(** An environment that names an unknown stage and a base URL. *)
Definition qa_environ : Settings.environ :=
  fun key =>
    if String.eqb key "ENVIRONMENT" then Some "qa"
    else if String.eqb key "API_BASE_URL" then Some "https://qa.example.com"
    else if String.eqb key "AUTH_TOKEN" then Some "s3cr3t"
    else None.

Lemma get_base_url_production (st : Settings.settings) :
  PyStr.lower (Settings.environment st) = "production" ->
  Settings.get_base_url st = "https://api.example.com".
Proof.
  unfold Settings.get_base_url, Settings.dict_get_or. now intros ->.
Qed.

(** X14.  [get_base_url] looks the environment name up without regard
    to case.  For development, staging and production it returns the
    built-in URL of that stage, whatever [API_BASE_URL] says; the
    configured base URL is used for any other name only. *)
Theorem get_base_url_by_environment (st : Settings.settings) :
  (PyStr.lower (Settings.environment st) = "development" ->
   Settings.get_base_url st = "http://localhost:3000")
  /\ (PyStr.lower (Settings.environment st) = "staging" ->
      Settings.get_base_url st = "https://api.staging.example.com")
  /\ (PyStr.lower (Settings.environment st) = "production" ->
      Settings.get_base_url st = "https://api.example.com")
  /\ (PyStr.lower (Settings.environment st) <> "development" ->
      PyStr.lower (Settings.environment st) <> "staging" ->
      PyStr.lower (Settings.environment st) <> "production" ->
      Settings.get_base_url st = Settings.api_base_url st).
Proof.
  unfold Settings.get_base_url, Settings.dict_get_or.
  repeat split.
  - intros ->. reflexivity.
  - intros ->. reflexivity.
  - apply get_base_url_production.
  - intros H1 H2 H3. cbn [DictFacts.get].
    apply String.eqb_neq in H1, H2, H3. now rewrite H1, H2, H3.
Qed.

(** What [load] gives in those two environments. *)
Definition production_settings : Settings.settings :=
  Settings.mk_settings "PRODUCTION" "https://api.staging.example.com" "v1"
                       30000 3 None.

Definition qa_settings : Settings.settings :=
  Settings.mk_settings "qa" "https://qa.example.com" "v1"
                       30000 3 (Some "s3cr3t").

Lemma get_base_url_by_environment_witness :
  (Settings.load sample_int production_environ = Some production_settings
   /\ Settings.get_base_url production_settings = "https://api.example.com")
  /\ (Settings.load sample_int qa_environ = Some qa_settings
      /\ Settings.get_base_url qa_settings = "https://qa.example.com").
Proof.
  split; (split; [vm_compute; reflexivity|]).
  - apply (proj1 (proj2 (proj2 (get_base_url_by_environment
                                  production_settings)))).
    reflexivity.
  - rewrite (proj2 (proj2 (proj2 (get_base_url_by_environment qa_settings))));
      [reflexivity | discriminate | discriminate | discriminate].
Defined.

(** X15.  [get_headers] always gives the three fixed headers, and an
    [Authorization] header exactly when a non-empty token is
    configured; its value is then [Bearer] and the token.  An
    [AUTH_TOKEN] set to the empty string counts as none. *)
Theorem get_headers_authorization (st : Settings.settings) :
  DictFacts.get "Content-Type" (Settings.get_headers st)
  = Some "application/json"
  /\ DictFacts.get "Accept" (Settings.get_headers st) = Some "application/json"
  /\ DictFacts.get "User-Agent" (Settings.get_headers st) = Some "API-Tests/1.0"
  /\ (forall token,
         Settings.auth_token st = Some token -> token <> "" ->
         DictFacts.get "Authorization" (Settings.get_headers st)
         = Some ("Bearer " ++ token))
  /\ (Settings.auth_token st = None \/ Settings.auth_token st = Some "" ->
      DictFacts.get "Authorization" (Settings.get_headers st) = None).
Proof.
  unfold Settings.get_headers.
  destruct (Settings.auth_token st) as [[|a t]|]; cbn [PyStr.truthy];
    repeat split; try reflexivity;
    try (intros token Hs Hne; injection Hs as <-; try congruence; reflexivity);
    try (intros token Hs; discriminate Hs);
    intros [H | H]; discriminate H.
Qed.

Lemma get_headers_authorization_witness :
  DictFacts.get "Authorization" (Settings.get_headers qa_settings)
  = Some ("Bearer " ++ "s3cr3t")
  /\ DictFacts.get "Authorization" (Settings.get_headers production_settings)
     = None.
Proof.
  split.
  - apply (proj1 (proj2 (proj2 (proj2 (get_headers_authorization qa_settings))))
                 "s3cr3t"); [reflexivity | discriminate].
  - apply (proj2 (proj2 (proj2 (proj2 (get_headers_authorization
                                         production_settings))))).
    left. reflexivity.
Defined.

(* ===================================================================== *)
(** ** The fixtures ([conftest.py]) *)
(* ===================================================================== *)

Module Conftest.

(** The dictionary [env_config] returns. *)
Record env_cfg : Type := mk_cfg {
  cfg_base_url : string;
  cfg_api_version : string;
  cfg_auth_token : option string;
  cfg_env : string
}.

(** [a or b] on strings. *)
Definition py_or (a b : string) : string :=
  if PyStr.truthy a then a else b.

(** [_get_token]. *)
Definition _get_token : option string := None.

(** [env_config], for the value of [--env] and of [--api-version]: the
    configuration, and the record it logs at level info. *)
Definition env_config (st : Settings.settings) (env cmd_api_version : string)
    : env_cfg * (string * pydict) :=
  let token := _get_token in
  let env_urls :=
    [ ("development", "http://localhost:3000");
      ("staging",
       py_or (Settings.api_base_url st) "https://api.staging.example.com");
      ("production",
       py_or (Settings.api_base_url st) "https://api.example.com") ] in
  let base := Settings.dict_get_or env env_urls (Settings.api_base_url st) in
  let version := py_or (Settings.api_version st) "v1" in
  let version :=
    if PyStr.truthy cmd_api_version then cmd_api_version else version in
  (mk_cfg base version token env,
   ("Environment configured", [("env", env); ("base_url", base)])).

(** The [api_client] fixture, up to its [yield]. *)
Definition api_client (cfg : env_cfg) : APIClient :=
  let client := init (cfg_base_url cfg) None in
  match cfg_auth_token cfg with
  | Some token =>
      if PyStr.truthy token then set_auth_token token client else client
  | None => client
  end.

(** The [authenticated_client] fixture, up to its [yield]. *)
Definition authenticated_client (api_client : APIClient) : APIClient :=
  set_auth_token "test-jwt-token" api_client.

End Conftest.

(* ===================================================================== *)
(** ** The Playwright configuration ([playwright.config.py]) *)
(* ===================================================================== *)

Module PlaywrightConfig.

(** [getattr(settings, name, None)]: [settings] is a dictionary, which
    has no attribute of the names asked for. *)
Definition settings_attr (st : Settings.settings) (name : string)
    : option string :=
  None.

(** [_resolve_base_url].  [module] is what the import of the settings
    module gave, [None] when it failed; with the module comes
    [get_base_url], which does not raise. *)
Definition _resolve_base_url (module : option Settings.settings)
    (env : Settings.environ) (default : string) : string :=
  let from_settings :=
    match module with
    | Some st => Some (Settings.get_base_url st)
    | None => None
    end in
  match from_settings with
  | Some url => url
  | None =>
      let attribute :=
        match module with
        | Some st => settings_attr st "API_BASE_URL"
        | None => None
        end in
      match attribute with
      | Some url => url
      | None => Settings.getenv env "API_BASE_URL" default
      end
  end.

(** [_base_url]. *)
Definition _base_url (module : option Settings.settings)
    (env : Settings.environ) : string :=
  _resolve_base_url module env "https://api.example.com".

End PlaywrightConfig.

(* ===================================================================== *)
(** ** What the configuration gives the tests *)
(* ===================================================================== *)

Lemma load_fields (py_int : string -> option Z) (env : Settings.environ)
    (st : Settings.settings) :
  Settings.load py_int env = Some st ->
  Settings.environment st = Settings.getenv env "ENVIRONMENT" "staging"
  /\ Settings.api_base_url st
     = Settings.getenv env "API_BASE_URL" "https://api.staging.example.com"
  /\ Settings.api_version st = Settings.getenv env "API_VERSION" "v1"
  /\ Settings.auth_token st = env "AUTH_TOKEN".
Proof.
  unfold Settings.load.
  destruct (py_int (Settings.getenv env "API_TIMEOUT" "30000")); [|discriminate].
  destruct (py_int (Settings.getenv env "API_MAX_RETRIES" "3")); [|discriminate].
  intros H. injection H as <-. repeat split.
Qed.

Lemma env_config_production_without_base_url
    (py_int : string -> option Z) (env : Settings.environ)
    (st : Settings.settings) (version : string) :
  Settings.load py_int env = Some st ->
  env "API_BASE_URL" = None ->
  Conftest.cfg_base_url (fst (Conftest.env_config st "production" version))
  = "https://api.staging.example.com".
Proof.
  intros Hload Hunset. apply load_fields in Hload as (_ & Hbase & _ & _).
  unfold Settings.getenv in Hbase. rewrite Hunset in Hbase.
  unfold Conftest.env_config, Settings.dict_get_or, Conftest.py_or.
  rewrite Hbase. reflexivity.
Qed.

(** X16.  The base URL [env_config] gives.  Development is always the
    local server.  Staging and production both take the configured base
    URL whenever it is not empty, and their own built-in URL otherwise;
    as the settings fill in the staging URL when [API_BASE_URL] is not
    set, running with [--env production] and no [API_BASE_URL] gives
    the staging URL. *)
Theorem env_config_base_url
    (py_int : string -> option Z) (env : Settings.environ)
    (st : Settings.settings) (version : string) :
  Settings.load py_int env = Some st ->
  Conftest.cfg_base_url (fst (Conftest.env_config st "development" version))
  = "http://localhost:3000"
  /\ (Settings.api_base_url st <> "" ->
      Conftest.cfg_base_url (fst (Conftest.env_config st "staging" version))
      = Settings.api_base_url st
      /\ Conftest.cfg_base_url
           (fst (Conftest.env_config st "production" version))
         = Settings.api_base_url st)
  /\ (Settings.api_base_url st = "" ->
      Conftest.cfg_base_url (fst (Conftest.env_config st "staging" version))
      = "https://api.staging.example.com"
      /\ Conftest.cfg_base_url
           (fst (Conftest.env_config st "production" version))
         = "https://api.example.com")
  /\ (env "API_BASE_URL" = None ->
      Conftest.cfg_base_url
        (fst (Conftest.env_config st "production" version))
      = "https://api.staging.example.com").
Proof.
  intros Hload.
  split; [reflexivity|]. split; [|split].
  - intros Hne. apply PyStrFacts.truthy_true_iff in Hne.
    unfold Conftest.env_config, Settings.dict_get_or, Conftest.py_or.
    cbn [fst Conftest.cfg_base_url DictFacts.get String.eqb Ascii.eqb
         Bool.eqb].
    now rewrite Hne.
  - unfold Conftest.env_config, Settings.dict_get_or, Conftest.py_or.
    intros ->. split; reflexivity.
  - now apply (env_config_production_without_base_url py_int env).
Qed.

Lemma env_config_base_url_witness :
  Conftest.cfg_base_url
    (fst (Conftest.env_config production_settings "production" "v1"))
  = "https://api.staging.example.com".
Proof.
  refine (proj2 (proj2 (proj2 (env_config_base_url
                                 sample_int production_environ
                                 production_settings "v1" _))) _);
    vm_compute; reflexivity.
Defined.

(** X17.  The API version [env_config] gives is the value of
    [--api-version] whenever that is not empty, its default [v1]
    included, whatever the settings hold; only an empty option falls
    back to the settings, and from an empty setting to [v1]. *)
Theorem env_config_api_version
    (st : Settings.settings) (env option : string) :
  (option <> "" ->
   Conftest.cfg_api_version (fst (Conftest.env_config st env option)) = option)
  /\ (option = "" -> Settings.api_version st <> "" ->
      Conftest.cfg_api_version (fst (Conftest.env_config st env option))
      = Settings.api_version st)
  /\ (option = "" -> Settings.api_version st = "" ->
      Conftest.cfg_api_version (fst (Conftest.env_config st env option))
      = "v1").
Proof.
  unfold Conftest.env_config, Conftest.py_or.
  cbn [fst Conftest.cfg_api_version]. split; [|split].
  - intros Hne. apply PyStrFacts.truthy_true_iff in Hne. now rewrite Hne.
  - intros -> Hne. apply PyStrFacts.truthy_true_iff in Hne.
    cbn [PyStr.truthy]. now rewrite Hne.
  - intros -> ->. reflexivity.
Qed.

Definition v2_settings : Settings.settings :=
  Settings.mk_settings "staging" "https://api.staging.example.com" "v2"
                       30000 3 None.

Lemma env_config_api_version_witness :
  Conftest.cfg_api_version (fst (Conftest.env_config v2_settings "staging" "v1"))
  = "v1"
  /\ Conftest.cfg_api_version
       (fst (Conftest.env_config v2_settings "staging" ""))
     = Settings.api_version v2_settings.
Proof.
  split.
  - apply (proj1 (env_config_api_version v2_settings "staging" "v1")).
    discriminate.
  - apply (proj1 (proj2 (env_config_api_version v2_settings "staging" "")));
      [reflexivity | discriminate].
Defined.

(** X18.  The client of the [api_client] fixture.  [env_config] never
    holds a token, so the fixture does not call [set_auth_token]: the
    client has the three built-in headers and the base URL of the
    configuration without trailing slashes, and its requests carry no
    [Authorization] header unless they bring their own.  The client of
    [authenticated_client] carries [Bearer test-jwt-token]. *)
Theorem api_client_fixture_has_no_token
    (st : Settings.settings) (env version : string)
    (method endpoint : string) (o : options) :
  (forall h, req_headers o = Some h -> Hdr.mem "Authorization" h = false) ->
  client_headers (Conftest.api_client (fst (Conftest.env_config st env version)))
  = builtin_headers
  /\ base_url (Conftest.api_client (fst (Conftest.env_config st env version)))
     = PyStr.rstrip "/"
         (Conftest.cfg_base_url (fst (Conftest.env_config st env version)))
  /\ Hdr.lookup "Authorization"
       (sent_headers
          (the_sent
             (Conftest.api_client (fst (Conftest.env_config st env version)))
             method endpoint o))
     = None
  /\ Hdr.lookup "Authorization"
       (sent_headers
          (the_sent
             (Conftest.authenticated_client
                (Conftest.api_client
                   (fst (Conftest.env_config st env version))))
             method endpoint o))
     = Some "Bearer test-jwt-token".
Proof.
  intros Hfree.
  assert (Hclient :
            Conftest.api_client (fst (Conftest.env_config st env version))
            = init (Conftest.cfg_base_url
                      (fst (Conftest.env_config st env version))) None)
    by reflexivity.
  rewrite Hclient. split; [reflexivity|]. split; [apply init_base_url|].
  split.
  - unfold Hdr.lookup. rewrite authorization_on_sent by exact Hfree.
    reflexivity.
  - apply HdrFacts.lookup_single.
    rewrite authorization_on_sent by exact Hfree.
    apply HdrFacts.values_set_same.
Qed.

Lemma api_client_fixture_has_no_token_witness :
  Hdr.lookup "Authorization"
    (sent_headers
       (the_sent
          (Conftest.api_client
             (fst (Conftest.env_config production_settings "staging" "v1")))
          "GET" "posts/1" default_options))
  = None
  /\ base_url (Conftest.api_client
                 (fst (Conftest.env_config production_settings "staging" "v1")))
     = "https://api.staging.example.com".
Proof.
  destruct (api_client_fixture_has_no_token
              production_settings "staging" "v1" "GET" "posts/1"
              default_options)
    as (_ & Hbase & Hnone & _).
  - intros h Hh. discriminate Hh.
  - split; [exact Hnone | exact Hbase].
Defined.

(** X19.  The base URL of the Playwright configuration.  When the
    settings module imports, [_resolve_base_url] returns
    [get_base_url()] and uses neither its default nor [API_BASE_URL]
    directly; when the import fails it returns [API_BASE_URL], or the
    default if that is not set.  With [ENVIRONMENT] naming production
    and no [API_BASE_URL], it therefore gives the production URL where
    [env_config] for [--env production] gives the staging one. *)
Theorem playwright_base_url
    (py_int : string -> option Z) (env : Settings.environ) (default : string) :
  (forall st,
      Settings.load py_int env = Some st ->
      PlaywrightConfig._resolve_base_url (Settings.load py_int env) env default
      = Settings.get_base_url st)
  /\ (Settings.load py_int env = None ->
      PlaywrightConfig._resolve_base_url (Settings.load py_int env) env default
      = Settings.getenv env "API_BASE_URL" default)
  /\ (forall st name version,
         Settings.load py_int env = Some st ->
         env "ENVIRONMENT" = Some name ->
         PyStr.lower name = "production" ->
         env "API_BASE_URL" = None ->
         PlaywrightConfig._base_url (Settings.load py_int env) env
         = "https://api.example.com"
         /\ Conftest.cfg_base_url
              (fst (Conftest.env_config st "production" version))
            = "https://api.staging.example.com").
Proof.
  split; [|split].
  - intros st ->. reflexivity.
  - intros ->. reflexivity.
  - intros st name version Hload Hname Hlower Hunset. split.
    + unfold PlaywrightConfig._base_url. rewrite Hload.
      cbn [PlaywrightConfig._resolve_base_url].
      apply get_base_url_production.
      apply load_fields in Hload as (Henv & _).
      rewrite Henv. unfold Settings.getenv. now rewrite Hname.
    + now apply (env_config_production_without_base_url py_int env).
Qed.

Lemma playwright_base_url_witness :
  PlaywrightConfig._base_url (Settings.load sample_int production_environ)
                             production_environ
  = "https://api.example.com"
  /\ Conftest.cfg_base_url
       (fst (Conftest.env_config production_settings "production" "v1"))
     = "https://api.staging.example.com".
Proof.
  refine (proj2 (proj2 (playwright_base_url sample_int production_environ
                                            "https://api.example.com"))
                production_settings "PRODUCTION" "v1" _ _ _ _);
    vm_compute; reflexivity.
Defined.
